(** * Kakoune client controller ([client.cc]): key dispatch, redraw
    reconciliation and the buffer-reload dialog.

    The controller is embedded as functions over an explicit world: the
    clients registered in the [ClientManager], the shared buffers, the
    filesystem timestamps and a log of the process-level effects.  Every
    client owns a recording user interface (the calls it received, the keys
    its input source still holds).  Collaborators whose code lives outside
    [client.cc] (window, expansion of format strings, the editing engine, the
    file reload) are the fields of the [Collaborators] class. *)

From Stdlib Require Import ZArith Lia Ascii String.
From stdpp Require Import base decidable option list strings.

Local Open Scope string_scope.
Local Open Scope list_scope.

(** ** Keys *)

(** Modelled from the spec: the [Key] type of [keys.hh], which is not among
    the sources.  A key is a modifier and a codepoint; named keys (escape,
    the focus events, ...) are codepoints outside the character range, here
    a separate constructor.  A resize event is carried by the modifier. *)
Inductive Modifiers :=
  Mod_None | Mod_Control | Mod_Alt | Mod_ControlAlt | Mod_Resize.

Inductive NamedKey :=
  Backspace | Delete | Escape | Up | Down | Left | Right
| FocusIn | FocusOut | Invalid.

Inductive Codepoint :=
| cp (c : N)
| named (k : NamedKey).

Record Key := mkKey { modifiers : Modifiers; key : Codepoint }.

#[global] Instance Modifiers_eq_dec : EqDecision Modifiers.
Proof. solve_decision. Defined.
#[global] Instance NamedKey_eq_dec : EqDecision NamedKey.
Proof. solve_decision. Defined.
#[global] Instance Codepoint_eq_dec : EqDecision Codepoint.
Proof. solve_decision. Defined.
#[global] Instance Key_eq_dec : EqDecision Key.
Proof. solve_decision. Defined.

(** A character literal used as a key: [Key(Codepoint)], no modifier. *)
Definition key_of_char (c : ascii) : Key := mkKey Mod_None (cp (N_of_ascii c)).
(** [ctrl(c)] *)
Definition ctrl (c : ascii) : Key := mkKey Mod_Control (cp (N_of_ascii c)).
Definition Key_Escape : Key := mkKey Mod_None (named Escape).
Definition Key_FocusIn : Key := mkKey Mod_None (named FocusIn).
Definition Key_FocusOut : Key := mkKey Mod_None (named FocusOut).
Definition Key_Invalid : Key := mkKey Mod_None (named Invalid).

Inductive EventMode := Normal | Pending | Urgent.
#[global] Instance EventMode_eq_dec : EqDecision EventMode.
Proof. solve_decision. Defined.

(** ** Display lines *)

(** [get_face(name)] looks a face up in the registry; a face is identified
    by the name it was asked under, [Face_default] is [Face{}]. *)
Inductive Face := Face_default | get_face (name : string).
#[global] Instance Face_eq_dec : EqDecision Face.
Proof. solve_decision. Defined.

Record DisplayAtom := mkAtom { content : string; face : Face }.
#[global] Instance DisplayAtom_eq_dec : EqDecision DisplayAtom.
Proof. solve_decision. Defined.

(** A [DisplayLine] is the sequence of its atoms; [push_back] appends. *)
Abbreviation DisplayLine := (list DisplayAtom).
Abbreviation DisplayBuffer := (list (list DisplayAtom)).

Definition push_back {A} (l : list A) (x : A) : list A := l ++ [x].

(** [DisplayLine(String, Face)]: a line of one atom. *)
Definition line_of (s : string) (f : Face) : DisplayLine := [mkAtom s f].

Abbreviation CharCoord := (Z * Z)%type.
Abbreviation ByteCoord := (Z * Z)%type.
Definition origin : Z * Z := (0, 0)%Z.

Inductive MenuStyle := MenuStyle_Prompt | MenuStyle_Inline.
Inductive InfoStyle :=
  InfoStyle_Prompt | InfoStyle_Inline | InfoStyle_InlineAbove
| InfoStyle_InlineBelow | InfoStyle_MenuDoc.
#[global] Instance MenuStyle_eq_dec : EqDecision MenuStyle.
Proof. solve_decision. Defined.
#[global] Instance InfoStyle_eq_dec : EqDecision InfoStyle.
Proof. solve_decision. Defined.

Record Menu := mkMenu {
  menu_items : list DisplayLine;
  menu_anchor : ByteCoord;
  menu_style : MenuStyle;
  menu_selected : Z }.

Record Info := mkInfo {
  info_title : string;
  info_content : string;
  info_anchor : ByteCoord;
  info_style : InfoStyle }.

(** ** Options, buffers, filesystem *)

Inductive Autoreload := Autoreload_Yes | Autoreload_No | Autoreload_Ask.
#[global] Instance Autoreload_eq_dec : EqDecision Autoreload.
Proof. solve_decision. Defined.

Abbreviation UIOptions := (list (string * string)).

(** The three options the client reads. *)
Record OptionManager := mkOptions {
  opt_ui_options : UIOptions;
  opt_modelinefmt : string;
  opt_autoreload : Autoreload }.

Abbreviation timespec := (Z * Z)%type.
Definition InvalidTime : timespec := (-1, -1)%Z.

(** [Buffer::Flags] as the client tests them: one boolean per flag. *)
Record BufferFlags := mkFlags {
  Flags_File : bool;
  Flags_New : bool;
  Flags_Fifo : bool }.

Record Buffer := mkBuffer {
  buf_name : string;
  buf_display_name : string;
  buf_flags : BufferFlags;
  buf_fs_timestamp : timespec;
  buf_is_modified : bool }.

Definition set_fs_timestamp (b : Buffer) (ts : timespec) : Buffer :=
  mkBuffer (buf_name b) (buf_display_name b) (buf_flags b) ts
           (buf_is_modified b).

(** Buffers are shared and compared by address: a buffer is named by its
    index in the world's buffer store. *)
Abbreviation BufferId := nat.

Abbreviation SelectionList := (list (ByteCoord * ByteCoord)).

(** The part of the [Context] that is not the window or the client. *)
Record Context := mkContext {
  ctx_name : string;
  ctx_selections : SelectionList;
  ctx_user_hooks_disabled : bool }.

(** ** Effects *)

Inductive exn :=
| runtime_error (what : string)
| client_removed (graceful : bool).

(** Calls received by a client's [UserInterface]. *)
Inductive UICall :=
| ui_draw (db : DisplayBuffer) (f : Face)
| ui_draw_status (status mode : DisplayLine) (f : Face)
| ui_refresh
| ui_menu_show (items : list DisplayLine) (anchor : CharCoord)
               (fg bg : Face) (style : MenuStyle)
| ui_menu_select (selected : Z)
| ui_menu_hide
| ui_info_show (title body : string) (anchor : CharCoord)
               (f : Face) (style : InfoStyle)
| ui_info_hide
| ui_set_ui_options (o : UIOptions).

(** Process-level effects, with the index of the acting client where there
    is one. *)
Inductive SysEvent :=
| ev_killpg_SIGINT
| ev_run_hook (client : nat) (name param : string)
| ev_handle_key (client : nat) (k : Key)
| ev_write_to_debug_buffer (msg : string)
| ev_reload_file_buffer (b : BufferId)
| ev_remove_client (client : nat) (graceful : bool)
| ev_register_watcher (client : nat)
| ev_unregister_watcher (client : nat).

(** The user interface as the client sees it: the calls made so far, the
    keys the input source will still yield, the dimensions. *)
Record UserInterface := mkUI {
  ui_calls : list UICall;
  ui_input : list Key;
  ui_dimensions : CharCoord }.

Definition ui_call (ui : UserInterface) (c : UICall) : UserInterface :=
  mkUI (ui_calls ui ++ [c]) (ui_input ui) (ui_dimensions ui).

Definition is_key_available (ui : UserInterface) : bool :=
  match ui_input ui with [] => false | _ :: _ => true end.

(** [get_key] yields the next key of the source; the recording interface
    answers [Key::Invalid] when asked without a key available. *)
Definition get_key (ui : UserInterface) : Key * UserInterface :=
  match ui_input ui with
  | k :: rest => (k, mkUI (ui_calls ui) rest (ui_dimensions ui))
  | [] => (Key_Invalid, ui)
  end.

(** ** Collaborators outside [client.cc] *)

Class Collaborators := {
  Window : Type;
  window_buffer : Window -> BufferId;
  window_options : Window -> OptionManager;
  window_needs_redraw : Window -> Context -> bool;
  window_position : Window -> CharCoord;
  window_update_display_buffer : Window -> Context -> Window * DisplayBuffer;
  window_display_position : Window -> ByteCoord -> CharCoord;
  window_set_dimensions : Window -> CharCoord -> Window;
  window_force_redraw : Window -> Window;
  (** [expand] and [parse_display_line]: [inl] is the message of the
      [runtime_error] thrown *)
  expand : string -> Context -> Window -> Buffer -> string + string;
  parse_display_line : string -> string + DisplayLine;
  key_to_str : Key -> string;
  (** the reload of a file buffer, given the filesystem: the reloaded
      buffer, or [inl] the message of the [runtime_error] thrown *)
  reload_file_buffer : (string -> timespec) -> Buffer -> string + Buffer;
  (** what the editing engine does with a key outside a one-shot handler:
      return, or throw *)
  engine_handle_key : Key -> Context -> option exn;
  get_free_window :
    BufferId -> list (Window * SelectionList) ->
    (Window * SelectionList) * list (Window * SelectionList)
}.

(** A computation over the world returns, throws, or runs out of the fuel
    that bounds the dispatch loop. *)
Inductive outcome (A : Type) :=
| Ret (a : A)
| Raise (e : exn)
| OutOfFuel.
Arguments Ret {A} a.
Arguments Raise {A} e.
Arguments OutOfFuel {A}.

Section ClientModel.
Context `{Collaborators}.

(** ** The input handler *)

(** Modelled from the spec: the [InputHandler] ([input_handler.cc] is not
    among the sources).  It is in normal mode, in some other mode of the
    editing engine, or waiting for one key on behalf of a callback
    ([on_next_key]); the only callback the client installs is
    [[this](Key key, Context&){ on_buffer_reload_key(key); }]. *)
Inductive KeyCallback := cb_on_buffer_reload_key.

Inductive InputMode :=
| Mode_Normal
| Mode_Engine (n : nat)
| Mode_NextKey (cb : KeyCallback).

Record InputHandler := mkInputHandler {
  ih_context : Context;
  ih_mode : InputMode;
  ih_recording : option ascii;          (* [is_recording], [recording_reg] *)
  ih_mode_line : DisplayLine }.

Definition on_next_key (cb : KeyCallback) (ih : InputHandler) : InputHandler :=
  mkInputHandler (ih_context ih) (Mode_NextKey cb) (ih_recording ih)
                 (ih_mode_line ih).

Definition reset_normal_mode (ih : InputHandler) : InputHandler :=
  mkInputHandler (ih_context ih) Mode_Normal (ih_recording ih)
                 (ih_mode_line ih).

Definition set_selections (ih : InputHandler) (s : SelectionList)
  : InputHandler :=
  mkInputHandler
    (mkContext (ctx_name (ih_context ih)) s
               (ctx_user_hooks_disabled (ih_context ih)))
    (ih_mode ih) (ih_recording ih) (ih_mode_line ih).

(** ** The client and the world *)

Record Client := mkClient {
  m_ui : UserInterface;
  m_window : Window;
  m_input_handler : InputHandler;
  m_pending_keys : list Key;
  m_status_line : DisplayLine;
  m_pending_status_line : DisplayLine;
  m_mode_line : DisplayLine;
  m_menu : Menu;
  m_info : Info;
  m_buffer_reload_dialog_opened : bool;
  m_last_buffer : option BufferId }.

Definition context (c : Client) : Context := ih_context (m_input_handler c).
(** [context().buffer()]: the buffer of the client's window. *)
Definition context_buffer (c : Client) : BufferId := window_buffer (m_window c).
(** [context().options()]: the options of the client's window. *)
Definition context_options (c : Client) : OptionManager :=
  window_options (m_window c).

Definition set_m_ui (c : Client) (v : UserInterface) : Client :=
  mkClient v (m_window c) (m_input_handler c) (m_pending_keys c)
    (m_status_line c) (m_pending_status_line c) (m_mode_line c) (m_menu c)
    (m_info c) (m_buffer_reload_dialog_opened c) (m_last_buffer c).
Definition set_m_window (c : Client) (v : Window) : Client :=
  mkClient (m_ui c) v (m_input_handler c) (m_pending_keys c)
    (m_status_line c) (m_pending_status_line c) (m_mode_line c) (m_menu c)
    (m_info c) (m_buffer_reload_dialog_opened c) (m_last_buffer c).
Definition set_m_input_handler (c : Client) (v : InputHandler) : Client :=
  mkClient (m_ui c) (m_window c) v (m_pending_keys c)
    (m_status_line c) (m_pending_status_line c) (m_mode_line c) (m_menu c)
    (m_info c) (m_buffer_reload_dialog_opened c) (m_last_buffer c).
Definition set_m_pending_keys (c : Client) (v : list Key) : Client :=
  mkClient (m_ui c) (m_window c) (m_input_handler c) v
    (m_status_line c) (m_pending_status_line c) (m_mode_line c) (m_menu c)
    (m_info c) (m_buffer_reload_dialog_opened c) (m_last_buffer c).
Definition set_m_status_line (c : Client) (v : DisplayLine) : Client :=
  mkClient (m_ui c) (m_window c) (m_input_handler c) (m_pending_keys c)
    v (m_pending_status_line c) (m_mode_line c) (m_menu c)
    (m_info c) (m_buffer_reload_dialog_opened c) (m_last_buffer c).
Definition set_m_pending_status_line (c : Client) (v : DisplayLine) : Client :=
  mkClient (m_ui c) (m_window c) (m_input_handler c) (m_pending_keys c)
    (m_status_line c) v (m_mode_line c) (m_menu c)
    (m_info c) (m_buffer_reload_dialog_opened c) (m_last_buffer c).
Definition set_m_mode_line (c : Client) (v : DisplayLine) : Client :=
  mkClient (m_ui c) (m_window c) (m_input_handler c) (m_pending_keys c)
    (m_status_line c) (m_pending_status_line c) v (m_menu c)
    (m_info c) (m_buffer_reload_dialog_opened c) (m_last_buffer c).
Definition set_m_menu (c : Client) (v : Menu) : Client :=
  mkClient (m_ui c) (m_window c) (m_input_handler c) (m_pending_keys c)
    (m_status_line c) (m_pending_status_line c) (m_mode_line c) v
    (m_info c) (m_buffer_reload_dialog_opened c) (m_last_buffer c).
Definition set_m_info (c : Client) (v : Info) : Client :=
  mkClient (m_ui c) (m_window c) (m_input_handler c) (m_pending_keys c)
    (m_status_line c) (m_pending_status_line c) (m_mode_line c) (m_menu c)
    v (m_buffer_reload_dialog_opened c) (m_last_buffer c).
Definition set_m_buffer_reload_dialog_opened (c : Client) (v : bool) : Client :=
  mkClient (m_ui c) (m_window c) (m_input_handler c) (m_pending_keys c)
    (m_status_line c) (m_pending_status_line c) (m_mode_line c) (m_menu c)
    (m_info c) v (m_last_buffer c).
Definition set_m_last_buffer (c : Client) (v : option BufferId) : Client :=
  mkClient (m_ui c) (m_window c) (m_input_handler c) (m_pending_keys c)
    (m_status_line c) (m_pending_status_line c) (m_mode_line c) (m_menu c)
    (m_info c) (m_buffer_reload_dialog_opened c) v.

(** [m_ui->f(...)] *)
Definition ui (c : Client) (call : UICall) : Client :=
  set_m_ui c (ui_call (m_ui c) call).

(** The world: the clients in the order [ClientManager] iterates them, the
    buffer store, [get_fs_timestamp], the free windows of the client
    manager, the session name of the [Server] and the effect log. *)
Record World := mkWorld {
  clients : list Client;
  buffers : list Buffer;
  get_fs_timestamp : string -> timespec;
  free_windows : list (Window * SelectionList);
  session : string;
  sys : list SysEvent }.

Definition set_clients (w : World) (v : list Client) : World :=
  mkWorld v (buffers w) (get_fs_timestamp w) (free_windows w) (session w)
          (sys w).
Definition set_buffers (w : World) (v : list Buffer) : World :=
  mkWorld (clients w) v (get_fs_timestamp w) (free_windows w) (session w)
          (sys w).
Definition set_free_windows (w : World) (v : list (Window * SelectionList))
  : World :=
  mkWorld (clients w) (buffers w) (get_fs_timestamp w) v (session w) (sys w).
Definition log (e : SysEvent) (w : World) : World :=
  mkWorld (clients w) (buffers w) (get_fs_timestamp w) (free_windows w)
          (session w) (sys w ++ [e]).

Definition put_client (this : nat) (c : Client) (w : World) : World :=
  set_clients w (<[this := c]> (clients w)).
Definition put_buffer (b : BufferId) (v : Buffer) (w : World) : World :=
  set_buffers w (<[b := v]> (buffers w)).

(** ** Computations over the world *)

Definition M (A : Type) : Type := World -> outcome A * World.

Definition ret {A} (a : A) : M A := fun w => (Ret a, w).
Definition bind {A B} (m : M A) (k : A -> M B) : M B :=
  fun w =>
    match m w with
    | (Ret a, w') => k a w'
    | (Raise e, w') => (Raise e, w')
    | (OutOfFuel, w') => (OutOfFuel, w')
    end.
(** a call that cannot throw *)
Definition lift (f : World -> World) : M unit := fun w => (Ret tt, f w).
(** [try m catch (e) h], for the exceptions [handles] selects *)
Definition try_catch {A} (m : M A) (handles : exn -> bool)
    (h : exn -> M A) : M A :=
  fun w =>
    match m w with
    | (Raise e, w') => if handles e then h e w' else (Raise e, w')
    | r => r
    end.

Notation "m ;;; k" := (bind m (fun _ => k))
  (at level 100, k at level 200, right associativity, only parsing).


(** ** Key dispatch *)

Definition get_next_key (mode : EventMode) (c : Client) : option Key * Client :=
  match m_pending_keys c with
  | key :: rest => (Some key, set_m_pending_keys c rest)
  | [] =>
      if bool_decide (mode <> Pending) && is_key_available (m_ui c) then
        let (key, ui') := get_key (m_ui c) in (Some key, set_m_ui c ui')
      else (None, c)
  end.

Definition print_status (status_line : DisplayLine) (c : Client) : Client :=
  set_m_pending_status_line c status_line.

Definition force_redraw (c : Client) : Client :=
  set_m_window c (window_force_redraw (m_window c)).

Definition close_buffer_reload_dialog (c : Client) : Client :=
  let c := set_m_buffer_reload_dialog_opened c false in
  let c := ui c ui_info_hide in
  set_m_input_handler c (reset_normal_mode (m_input_handler c)).

(** [reload_buffer]; [context().print_status] reaches [print_status] of the
    context's client, which is [this].  When [reload_file_buffer] throws,
    the status line is not reached. *)
Definition reload_buffer (this : nat) : M unit :=
  fun w =>
    match clients w !! this with
    | Some c =>
        let buffer := context_buffer c in
        match buffers w !! buffer with
        | Some b =>
            let w := log (ev_reload_file_buffer buffer) w in
            match reload_file_buffer (get_fs_timestamp w) b with
            | inr b' =>
                (Ret tt,
                 put_client this
                   (print_status
                      (line_of ("'" +:+ buf_display_name b' +:+ "' reloaded")
                               (get_face "Information")) c)
                   (put_buffer buffer b' w))
            | inl what => (Raise (runtime_error what), w)
            end
        | None => (Ret tt, w)
        end
    | None => (Ret tt, w)
    end.

(** The loop over [ClientManager::instance()] that ends
    [on_buffer_reload_key]. *)
Definition close_dialogs_on (buffer : BufferId) (cs : list Client)
  : list Client :=
  map (fun client =>
         if bool_decide (context_buffer client = buffer)
            && m_buffer_reload_dialog_opened client
         then close_buffer_reload_dialog client else client) cs.

Definition on_buffer_reload_key (this : nat) (key : Key) : M unit :=
  fun w =>
    match clients w !! this with
    | Some c =>
        let buffer := context_buffer c in
        match buffers w !! buffer with
        | Some b =>
            if bool_decide (key = key_of_char "y")
               || bool_decide (key = ctrl "m")
            then
              (reload_buffer this ;;;
               lift (fun w =>
                 set_clients w (close_dialogs_on buffer (clients w)))) w
            else if bool_decide (key = key_of_char "n")
                    || bool_decide (key = Key_Escape)
            then
              let b' := set_fs_timestamp b (get_fs_timestamp w (buf_name b)) in
              let w := put_buffer buffer b' w in
              let w :=
                put_client this
                  (print_status
                     (line_of ("'" +:+ buf_display_name b' +:+ "' kept")
                              (get_face "Information")) c) w in
              (Ret tt, set_clients w (close_dialogs_on buffer (clients w)))
            else
              let c :=
                print_status
                  (line_of
                     ("'" +:+ key_to_str key +:+ "' is not a valid choice")
                     (get_face "Error")) c in
              (Ret tt,
               put_client this
                 (set_m_input_handler c
                    (on_next_key cb_on_buffer_reload_key (m_input_handler c)))
                 w)
        | None => (Ret tt, w)
        end
    | None => (Ret tt, w)
    end.

Definition is_inline (style : InfoStyle) : bool :=
  bool_decide (style = InfoStyle_Inline)
  || bool_decide (style = InfoStyle_InlineAbove)
  || bool_decide (style = InfoStyle_InlineBelow).

Definition info_show (title body : string) (anchor : ByteCoord)
    (style : InfoStyle) (c : Client) : Client :=
  let c := set_m_info c (mkInfo title body anchor style) in
  let ui_anchor :=
    if is_inline style then window_display_position (m_window c) anchor
    else origin in
  ui c (ui_info_show (info_title (m_info c)) (info_content (m_info c))
                     ui_anchor (get_face "Information") style).

Definition menu_show (choices : list DisplayLine) (anchor : ByteCoord)
    (style : MenuStyle) (c : Client) : Client :=
  let c := set_m_menu c (mkMenu choices anchor style (-1)) in
  let ui_anchor :=
    if bool_decide (style = MenuStyle_Inline)
    then window_display_position (m_window c) anchor else origin in
  ui c (ui_menu_show (menu_items (m_menu c)) ui_anchor
          (get_face "MenuForeground") (get_face "MenuBackground") style).

Definition menu_select (selected : Z) (c : Client) : Client :=
  let c :=
    set_m_menu c (mkMenu (menu_items (m_menu c)) (menu_anchor (m_menu c))
                         (menu_style (m_menu c)) selected) in
  ui c (ui_menu_select selected).

Definition newline : string := String (ascii_of_nat 10) "".

Definition check_if_buffer_needs_reloading (this : nat) : M unit :=
  fun w =>
    match clients w !! this with
    | Some c =>
        if m_buffer_reload_dialog_opened c then (Ret tt, w)
        else
          match buffers w !! context_buffer c with
          | Some buffer =>
              let reload := opt_autoreload (context_options c) in
              if negb (Flags_File (buf_flags buffer))
                 || bool_decide (reload = Autoreload_No)
              then (Ret tt, w)
              else
                let filename := buf_name buffer in
                let ts := get_fs_timestamp w filename in
                if bool_decide (ts = InvalidTime)
                   || bool_decide (ts = buf_fs_timestamp buffer)
                then (Ret tt, w)
                else if bool_decide (reload = Autoreload_Ask) then
                  let bufname := buf_display_name buffer in
                  let c :=
                    info_show ("reload '" +:+ bufname +:+ "' ?")
                      ("'" +:+ bufname +:+ "' was modified externally"
                       +:+ newline
                       +:+ "press <ret> or y to reload, <esc> or n to keep")
                      origin InfoStyle_Prompt c in
                  let c := set_m_buffer_reload_dialog_opened c true in
                  (Ret tt,
                   put_client this
                     (set_m_input_handler c
                        (on_next_key cb_on_buffer_reload_key
                                     (m_input_handler c)))
                     w)
                else reload_buffer this w
          | None => (Ret tt, w)
          end
    | None => (Ret tt, w)
    end.

(** ** Mode line and redraw *)

(** [parse_display_line(expand(modelinefmt, context()))]: the line, or the
    message of the [runtime_error] either call threw. *)
Definition expand_modelinefmt (c : Client) (b : Buffer)
  : string + DisplayLine :=
  match expand (opt_modelinefmt (context_options c)) (context c)
               (m_window c) b with
  | inr expanded => parse_display_line expanded
  | inl err => inl err
  end.

(** [generate_mode_line] with [b] the context's buffer and [session] the
    server's session; returned with the line are the messages written to the
    debug buffer. *)
Definition generate_mode_line (c : Client) (b : Buffer) (session : string)
  : DisplayLine * list SysEvent :=
  let '(modeline, dbg) :=
    match expand_modelinefmt c b with
    | inr line => (line, [])
    | inl err =>
        (push_back [] (mkAtom "modelinefmt error, see *debug* buffer"
                              (get_face "Error")),
         [ev_write_to_debug_buffer
            ("Error while parsing modelinefmt: " +:+ err)])
    end in
  let info_face := get_face "Information" in
  let modeline :=
    if buf_is_modified b then push_back modeline (mkAtom "[+]" info_face)
    else modeline in
  let modeline :=
    match ih_recording (m_input_handler c) with
    | Some reg =>
        push_back modeline
          (mkAtom ("[recording (" +:+ String reg "" +:+ ")]") info_face)
    | None => modeline
    end in
  let modeline :=
    if Flags_New (buf_flags b)
    then push_back modeline (mkAtom "[new file]" info_face) else modeline in
  let modeline :=
    if ctx_user_hooks_disabled (context c)
    then push_back modeline (mkAtom "[no-hooks]" info_face) else modeline in
  let modeline :=
    if Flags_Fifo (buf_flags b)
    then push_back modeline (mkAtom "[fifo]" info_face) else modeline in
  let modeline := push_back modeline (mkAtom " " Face_default) in
  let modeline := fold_left push_back (ih_mode_line (m_input_handler c))
                            modeline in
  let modeline :=
    push_back modeline
      (mkAtom (" - " +:+ ctx_name (context c) +:+ "@[" +:+ session +:+ "]")
              Face_default) in
  (modeline, dbg).

(** The block [if (needs_redraw) { ... }] of [redraw_ifn]: draw the window
    and, if it moved, reanchor the menu and the info. *)
Definition redraw_window (c : Client) : Client :=
  if window_needs_redraw (m_window c) (context c) then
    let window_pos := window_position (m_window c) in
    let (window, display) :=
      window_update_display_buffer (m_window c) (context c) in
    let c := set_m_window c window in
    let c := ui c (ui_draw display (get_face "Default")) in
    if bool_decide (window_pos <> window_position (m_window c)) then
      let c :=
        if negb (bool_decide (menu_items (m_menu c) = []))
           && bool_decide (menu_style (m_menu c) = MenuStyle_Inline)
        then
          let c :=
            ui c (ui_menu_show (menu_items (m_menu c))
                    (window_display_position (m_window c)
                                             (menu_anchor (m_menu c)))
                    (get_face "MenuForeground") (get_face "MenuBackground")
                    (menu_style (m_menu c))) in
          ui c (ui_menu_select (menu_selected (m_menu c)))
        else c in
      if negb (bool_decide (info_content (m_info c) = ""))
         && is_inline (info_style (m_info c))
      then
        ui c (ui_info_show (info_title (m_info c)) (info_content (m_info c))
                (window_display_position (m_window c)
                                         (info_anchor (m_info c)))
                (get_face "Information") (info_style (m_info c)))
      else c
    else c
  else c.

Definition redraw_ifn (c : Client) (b : Buffer) (session : string)
  : Client * list SysEvent :=
  let needs_redraw := window_needs_redraw (m_window c) (context c) in
  let c := redraw_window c in
  let (mode_line, dbg) := generate_mode_line c b session in
  let c :=
    if needs_redraw
       || bool_decide (m_status_line c <> m_pending_status_line c)
       || bool_decide (mode_line <> m_mode_line c)
    then
      let c := set_m_mode_line c mode_line in
      let c := set_m_status_line c (m_pending_status_line c) in
      ui c (ui_draw_status (m_status_line c) (m_mode_line c)
                           (get_face "StatusLine"))
    else c in
  (ui c ui_refresh, dbg).


(** ** Dispatch of the available input *)

Definition run_callback (cb : KeyCallback) (this : nat) (key : Key)
  : M unit :=
  match cb with
  | cb_on_buffer_reload_key => on_buffer_reload_key this key
  end.

(** Modelled from the spec: [InputHandler::handle_key].  A one-shot handler
    installed by [on_next_key] intercepts the key: the handler goes back to
    normal mode and the callback runs, returning or throwing; otherwise the
    key goes to the editing engine, which returns or throws. *)
Definition handle_key (this : nat) (key : Key) : M unit :=
  fun w =>
    match clients w !! this with
    | Some c =>
        let w := log (ev_handle_key this key) w in
        match ih_mode (m_input_handler c) with
        | Mode_NextKey cb =>
            let w :=
              put_client this
                (set_m_input_handler c (reset_normal_mode (m_input_handler c)))
                w in
            run_callback cb this key w
        | _ =>
            match engine_handle_key key (context c) with
            | None => (Ret tt, w)
            | Some e => (Raise e, w)
            end
        end
    | None => (Ret tt, w)
    end.

(** The body of the [while] of [handle_available_input] for one key. *)
Definition dispatch_key (this : nat) (key : Key) : M unit :=
  fun w =>
    match clients w !! this with
    | Some c =>
        if bool_decide (key = ctrl "c") then (Ret tt, log ev_killpg_SIGINT w)
        else if bool_decide (key = Key_FocusIn) then
          (Ret tt, log (ev_run_hook this "FocusIn" (ctx_name (context c))) w)
        else if bool_decide (key = Key_FocusOut) then
          (Ret tt, log (ev_run_hook this "FocusOut" (ctx_name (context c))) w)
        else if bool_decide (modifiers key = Mod_Resize) then
          (Ret tt, put_client this (force_redraw c) w)
        else handle_key this key w
    | None => (Ret tt, w)
    end.

(** [while (Optional<Key> key = get_next_key(mode)) ...] *)
Fixpoint dispatch_loop (fuel : nat) (this : nat) (mode : EventMode) : M unit :=
  fun w =>
    match fuel with
    | O => (OutOfFuel, w)
    | S fuel =>
        match clients w !! this with
        | Some c =>
            match get_next_key mode c with
            | (Some key, c') =>
                (dispatch_key this key ;;; dispatch_loop fuel this mode)
                  (put_client this c' w)
            | (None, c') => (Ret tt, put_client this c' w)
            end
        | None => (Ret tt, w)
        end
    end.

Definition is_runtime_error (e : exn) : bool :=
  match e with runtime_error _ => true | _ => false end.
Definition is_client_removed (e : exn) : bool :=
  match e with client_removed _ => true | _ => false end.

(** [ClientManager::remove_client] *)
Definition remove_client (this : nat) (graceful : bool) (w : World) : World :=
  log (ev_remove_client this graceful)
      (set_clients w (delete this (clients w))).

Definition on_runtime_error (this : nat) (e : exn) : M unit :=
  match e with
  | runtime_error what =>
      lift (fun w =>
        match clients w !! this with
        | Some c =>
            log (ev_run_hook this "RuntimeError" what)
              (put_client this
                 (print_status (line_of what (get_face "Error")) c) w)
        | None => w
        end)
  | _ => ret tt
  end.

Definition on_client_removed (this : nat) (e : exn) : M unit :=
  match e with
  | client_removed graceful => lift (remove_client this graceful)
  | _ => ret tt
  end.

Definition handle_available_input (fuel : nat) (this : nat) (mode : EventMode)
  : M unit :=
  fun w =>
    match clients w !! this with
    | Some c =>
        if bool_decide (mode = Urgent) then
          let (key, ui') := get_key (m_ui c) in
          let c := set_m_ui c ui' in
          if bool_decide (key = ctrl "c")
          then (Ret tt, log ev_killpg_SIGINT (put_client this c w))
          else
            (Ret tt,
             put_client this
               (set_m_pending_keys c (push_back (m_pending_keys c) key)) w)
        else
          try_catch
            (try_catch (dispatch_loop fuel this mode)
                       is_runtime_error (on_runtime_error this))
            is_client_removed (on_client_removed this) w
    | None => (Ret tt, w)
    end.

(** ** Changing the buffer *)

Definition change_buffer (this : nat) (buffer : BufferId) (w : World) : World :=
  match clients w !! this, buffers w !! buffer with
  | Some c, Some b =>
      let c :=
        if m_buffer_reload_dialog_opened c
        then close_buffer_reload_dialog c else c in
      let c := set_m_last_buffer c (Some (window_buffer (m_window c))) in
      let w := log (ev_unregister_watcher this) w in
      (* [add_free_window], [get_free_window] *)
      let free :=
        push_back (free_windows w) (m_window c, ctx_selections (context c)) in
      let '(ws, free) := get_free_window buffer free in
      let w := set_free_windows w free in
      let c := set_m_window c (fst ws) in
      let w := log (ev_register_watcher this) w in
      let c := ui c (ui_set_ui_options
                       (opt_ui_options (window_options (m_window c)))) in
      let c := set_m_input_handler c
                 (set_selections (m_input_handler c) (snd ws)) in
      let c := set_m_window c
                 (window_set_dimensions (m_window c)
                                        (ui_dimensions (m_ui c))) in
      log (ev_run_hook this "WinDisplay" (buf_name b)) (put_client this c w)
  | _, _ => w
  end.

(** ** Environment variables, options, hiding the overlays *)

(** [get_env_var]: [m_env_vars] is a sequence of name and value pairs that
    [find] searches from the front. *)
Definition get_env_var (m_env_vars : list (string * string)) (name : string)
  : string :=
  match List.find (fun it => bool_decide (fst it = name)) m_env_vars with
  | Some it => snd it
  | None => ""
  end.

(** [on_option_changed], for an option of the given name holding [value] *)
Definition on_option_changed (name : string) (value : UIOptions) (c : Client)
  : Client :=
  if bool_decide (name = "ui_options") then ui c (ui_set_ui_options value)
  else c.

(** Modelled from the spec: [Menu{}] and [Info{}], the empty overlays (the
    structures are declared in [client.hh], which is not among the
    sources). *)
Definition Menu_empty : Menu := mkMenu [] origin MenuStyle_Prompt 0.
Definition Info_empty : Info := mkInfo "" "" origin InfoStyle_Prompt.

Definition menu_hide (c : Client) : Client :=
  let c := set_m_menu c Menu_empty in
  ui c ui_menu_hide.

Definition info_hide (c : Client) : Client :=
  let c := set_m_info c Info_empty in
  ui c ui_info_hide.

End ClientModel.

(** * Strings ([string.hh]) *)

Module StringOps.

(** A [char] is its numeric value.  A [String] or a [StringView], seen
    through [StringOps], is the sequence of characters from [begin()] to
    [end()]; [ByteCount] is an [int]. *)
Abbreviation char := Z.
Abbreviation chars := (list Z).

Definition INT_MAX : Z := 2147483647.

Definition length (s : chars) : Z := Z.of_nat (List.length s).

(** [std::equal(lhs.begin(), lhs.end(), rhs.begin())]: every character of
    [lhs] against the one at the same place from [rhs.begin()] on. *)
Fixpoint equal (lhs rhs : chars) : bool :=
  match lhs, rhs with
  | [], _ => true
  | x :: lhs, y :: rhs => (x =? y)%Z && equal lhs rhs
  | _ :: _, [] => false
  end.

(** [operator==] and [operator!=] *)
Definition eq (lhs rhs : chars) : bool :=
  (length lhs =? length rhs)%Z && equal lhs rhs.
Definition neq (lhs rhs : chars) : bool := negb (eq lhs rhs).

(** [std::lexicographical_compare] with [<] on [char] *)
Fixpoint lexicographical_compare (lhs rhs : chars) : bool :=
  match lhs, rhs with
  | _, [] => false
  | [], _ :: _ => true
  | x :: lhs, y :: rhs =>
      if (x <? y)%Z then true
      else if (y <? x)%Z then false
      else lexicographical_compare lhs rhs
  end.

(** [operator<] *)
Definition lt (lhs rhs : chars) : bool := lexicographical_compare lhs rhs.

Definition empty (s : chars) : bool := (length s =? 0)%Z.

(** [substr(ByteCount from, ByteCount length)]: the view
    [{data() + from, min(length() - from, length)}], a negative [length]
    standing for [INT_MAX].  The source does not check [from]; [None] is a
    view that starts outside the characters of [s]. *)
Definition substr (s : chars) (from length_ : Z) : option chars :=
  let length_ := if (length_ <? 0)%Z then INT_MAX else length_ in
  let n := Z.min (length s - from) length_ in
  if (0 <=? from)%Z && (from <=? length s)%Z
  then Some (take (Z.to_nat n) (drop (Z.to_nat from) s))
  else None.

(** [String::append(data, count)] with the characters of a view *)
Definition append (s data : chars) : chars := s ++ data.

(** [operator+=] and [operator+] *)
Definition plus_assign (lhs rhs : chars) : chars := append lhs rhs.
Definition plus (lhs rhs : chars) : chars := append (append [] lhs) rhs.

(** [prefix_match]: [str.substr(0_byte, prefix.length()) == prefix] *)
Definition prefix_match (str prefix : chars) : bool :=
  match substr str 0 (length prefix) with
  | Some view => eq view prefix
  | None => false
  end.

(** [StringView::strlen], on the characters in memory from [s] on: [None]
    when the recursion runs past them without meeting a zero. *)
Fixpoint strlen (s : chars) : option Z :=
  match s with
  | [] => None
  | c :: s =>
      if (c =? 0)%Z then Some 0%Z
      else match strlen s with
           | Some n => Some (n + 1)%Z
           | None => None
           end
  end.

(** [StringView(const char* data)]: the characters up to the zero. *)
Definition view_of_c_str (s : chars) : option chars :=
  match strlen s with
  | Some n => Some (take (Z.to_nat n) s)
  | None => None
  end.

Section Join.
(** [escape] is declared in [string.hh] and defined elsewhere. *)
Variable escape : chars -> chars -> char -> chars.

Definition backslash : char := 92%Z.

(** The loop of [join], [res] being the string built so far. *)
Fixpoint join_loop (container : list chars) (joiner : char)
    (esc_joiner : bool) (res : chars) : chars :=
  match container with
  | [] => res
  | str :: container =>
      let res := if negb (empty res) then plus_assign res [joiner] else res in
      let res :=
        plus_assign res
          (if esc_joiner then escape str [joiner] backslash else str) in
      join_loop container joiner esc_joiner res
  end.

Definition join (container : list chars) (joiner : char) (esc_joiner : bool)
  : chars :=
  join_loop container joiner esc_joiner [].

End Join.

(** What [join] is meant to build: the elements with the joiner between
    them. *)
Fixpoint intercalate (joiner : char) (l : list chars) : chars :=
  match l with
  | [] => []
  | [x] => x
  | x :: l => x ++ joiner :: intercalate joiner l
  end.

(** The list without its leading empty elements. *)
Fixpoint skip_empty (l : list chars) : list chars :=
  match l with
  | [] :: l => skip_empty l
  | _ => l
  end.

End StringOps.

(** ** A concrete set of collaborators

    A window that scrolls to a preset position when its display buffer is
    updated, a format expansion that fails on one format string, an engine
    that throws on one key, a reload that takes the timestamp of the file
    and fails when the file has none. *)

Record TestWindow := mkTestWindow {
  tw_buffer : BufferId;
  tw_options : OptionManager;
  tw_position : CharCoord;
  tw_scroll_to : CharCoord;
  tw_dirty : bool }.

Definition test_key_to_str (k : Key) : string :=
  match key k with
  | cp c => String (ascii_of_N c) ""
  | named _ => "<named>"
  end.

Definition test_collaborators : Collaborators := {|
  Window := TestWindow;
  window_buffer := tw_buffer;
  window_options := tw_options;
  window_needs_redraw := fun w _ => tw_dirty w;
  window_position := tw_position;
  window_update_display_buffer := fun w _ =>
    (mkTestWindow (tw_buffer w) (tw_options w) (tw_scroll_to w)
                  (tw_scroll_to w) false,
     [[mkAtom "text" Face_default]]);
  window_display_position := fun w a =>
    (fst a - fst (tw_position w), snd a - snd (tw_position w))%Z;
  window_set_dimensions := fun w _ => w;
  window_force_redraw := fun w =>
    mkTestWindow (tw_buffer w) (tw_options w) (tw_position w)
                 (tw_scroll_to w) true;
  expand := fun fmt _ _ _ =>
    if bool_decide (fmt = "%bad") then inl "no such expansion" else inr fmt;
  parse_display_line := fun s => inr [mkAtom s Face_default];
  key_to_str := test_key_to_str;
  reload_file_buffer := fun fs b =>
    if bool_decide (fs (buf_name b) = InvalidTime)
    then inl "file access error"
    else inr (set_fs_timestamp b (fs (buf_name b)));
  engine_handle_key := fun k _ =>
    if bool_decide (k = key_of_char "!") then Some (runtime_error "boom")
    else None;
  get_free_window := fun b free =>
    ((mkTestWindow b (mkOptions [] "" Autoreload_Ask) (0, 0)%Z (0, 0)%Z true,
      []), free)
|}.

Definition test_options (a : Autoreload) : OptionManager :=
  mkOptions [("ncurses_status_on_top", "yes")] "%val{bufname}" a.

Definition test_window (b : BufferId) (a : Autoreload) : TestWindow :=
  mkTestWindow b (test_options a) (0, 0)%Z (3, 0)%Z true.

Definition test_handler (name : string) (mode : InputMode)
  : InputHandler :=
  mkInputHandler (mkContext name [] false) mode None
                 [mkAtom "insert" Face_default].

(** A client on buffer [b] with the reload dialog closed or opened. *)
Definition test_client (name : string) (b : BufferId) (a : Autoreload)
    (opened : bool) (pending input : list Key) : @Client test_collaborators :=
  mkClient (mkUI [] input (80, 24)%Z)
    (test_window b a : @Window test_collaborators)
    (test_handler name
       (if opened then Mode_NextKey cb_on_buffer_reload_key else Mode_Normal))
    pending [] [] []
    (mkMenu [[mkAtom "item" Face_default]] (5, 2)%Z MenuStyle_Inline 0)
    (mkInfo "title" "body" (6, 1)%Z InfoStyle_InlineAbove)
    opened None.

Definition test_buffer (name : string) (ts : Z) : Buffer :=
  mkBuffer ("/tmp/" +:+ name) name (mkFlags true false false) (ts, 0%Z) false.

Definition test_fs (name : string) : timespec := (7, 0)%Z.

(** Three clients: two on buffer 0 with the dialog open, one on buffer 1. *)
Definition test_world (a : Autoreload) (opened : bool)
    (pending input : list Key) : @World test_collaborators :=
  mkWorld
    [test_client "c0" 0 a opened pending input;
     test_client "c1" 0 a opened [] [];
     test_client "c2" 1 a false [] []]
    [test_buffer "a.txt" 5; test_buffer "b.txt" 7]
    test_fs [] "kak-session" [].

(** The worlds the properties are tried on. *)
Definition key_a : Key := key_of_char "a".
Definition key_b : Key := key_of_char "b".
Definition key_x : Key := key_of_char "x".
Definition world_closed : @World test_collaborators :=
  test_world Autoreload_Ask false [] [].
Definition world_opened : @World test_collaborators :=
  test_world Autoreload_Ask true [] [].
Definition client_closed : @Client test_collaborators :=
  test_client "c0" 0 Autoreload_Ask false [] [].
Definition client_opened : @Client test_collaborators :=
  test_client "c0" 0 Autoreload_Ask true [] [].
Definition buffer_a : Buffer := test_buffer "a.txt" 5.
Definition world_urgent : @World test_collaborators :=
  test_world Autoreload_Ask false [key_a] [ctrl "c"; key_b].


Definition key_bang : Key := key_of_char "!".



Definition world_failing : @World test_collaborators :=
  test_world Autoreload_Ask false [key_bang; key_a] [key_b].
Definition client_failing : @Client test_collaborators :=
  test_client "c0" 0 Autoreload_Ask false [key_bang; key_a] [key_b].


Definition world_modal : @World test_collaborators :=
  test_world Autoreload_Ask true [key_x; Key_FocusIn] [key_bang].
Definition client_modal : @Client test_collaborators :=
  test_client "c0" 0 Autoreload_Ask true [key_x; Key_FocusIn] [key_bang].

(** The dialog is open on both clients of buffer 0 and the file has gone:
    it has no timestamp, and reloading it fails. *)
Definition world_gone : @World test_collaborators :=
  mkWorld
    [test_client "c0" 0 Autoreload_Ask true [] [];
     test_client "c1" 0 Autoreload_Ask true [] [];
     test_client "c2" 1 Autoreload_Ask false [] []]
    [test_buffer "a.txt" 5; test_buffer "b.txt" 7]
    (fun _ => InvalidTime) [] "kak-session" [].


Definition hello : list Z := [104; 101; 108; 108; 111]%Z.

(** ** Observations on the logs *)

(** An indicator atom, present only if its condition holds. *)
Definition indicator (cond : bool) (text : string) : DisplayLine :=
  if cond then [mkAtom text (get_face "Information")] else [].

Definition is_draw_status (call : UICall) : bool :=
  match call with ui_draw_status _ _ _ => true | _ => false end.
Definition is_refresh (call : UICall) : bool :=
  match call with ui_refresh => true | _ => false end.
Definition is_menu_show (call : UICall) : bool :=
  match call with ui_menu_show _ _ _ _ _ => true | _ => false end.
Definition is_info_show (call : UICall) : bool :=
  match call with ui_info_show _ _ _ _ _ => true | _ => false end.

(** The calls a user interface received after it was in state [before]. *)
Definition issued (before after : UserInterface) : list UICall :=
  drop (length (ui_calls before)) (ui_calls after).

(** The keys handed to [m_input_handler.handle_key] of client [this], in
    order. *)
Definition handled_keys (this : nat) (evs : list SysEvent) : list Key :=
  omap (fun e => match e with
                 | ev_handle_key client k =>
                     if bool_decide (client = this) then Some k else None
                 | _ => None
                 end) evs.

(** The keys the dispatch loop hands to the input handler: all but the
    interrupt key, the focus events and the resize events. *)
Definition forwarded (k : Key) : bool :=
  negb (bool_decide (k = ctrl "c"))
  && negb (bool_decide (k = Key_FocusIn))
  && negb (bool_decide (k = Key_FocusOut))
  && negb (bool_decide (modifiers k = Mod_Resize)).

(** The keys a client holds: its pending queue and what its input source
    will yield. *)
Definition keys_of `{Collaborators} (c : Client) : list Key * list Key :=
  (m_pending_keys c, ui_input (m_ui c)).

(** The keys [get_next_key] can return in [mode], in the order it returns
    them: the pending queue, then (unless the mode is [Pending]) the input
    source. *)
Definition available `{Collaborators} (mode : EventMode) (c : Client)
  : list Key :=
  m_pending_keys c
  ++ (if bool_decide (mode = Pending) then [] else ui_input (m_ui c)).

Definition is_menu_call (call : UICall) : bool :=
  match call with
  | ui_menu_show _ _ _ _ _ | ui_menu_select _ | ui_menu_hide => true
  | _ => false
  end.

(** What the dispatch of [k] by client [this], named [name], adds to the
    effect log when the input handler neither throws nor reloads. *)
Definition dispatch_event (this : nat) (name : string) (k : Key)
  : list SysEvent :=
  if bool_decide (k = ctrl "c") then [ev_killpg_SIGINT]
  else if bool_decide (k = Key_FocusIn) then [ev_run_hook this "FocusIn" name]
  else if bool_decide (k = Key_FocusOut)
  then [ev_run_hook this "FocusOut" name]
  else if bool_decide (modifiers k = Mod_Resize) then []
  else [ev_handle_key this k].



(** The keys that resolve the reload dialog. *)
Definition resolves_dialog (k : Key) : bool :=
  bool_decide (k = key_of_char "y") || bool_decide (k = ctrl "m")
  || bool_decide (k = key_of_char "n") || bool_decide (k = Key_Escape).

(** The state the dialog keeps a client in: flag set, one-shot handler
    installed, on the buffer numbered [buffer], named [name]. *)
Definition awaiting `{Collaborators} (buffer : BufferId) (name : string) (c : Client) : Prop :=
  m_buffer_reload_dialog_opened c = true
  /\ ih_mode (m_input_handler c) = Mode_NextKey cb_on_buffer_reload_key
  /\ context_buffer c = buffer
  /\ ctx_name (context c) = name.

(** [s] occurs in [t]. *)
Definition contains (s t : string) : Prop :=
  exists pre post, t = pre +:+ s +:+ post.

(** * Properties *)

Section Properties.
Context `{Collaborators}.

(** ** Mode line *)

Lemma fold_left_push_back {A} (l acc : list A) :
  fold_left push_back l acc = acc ++ l.
Proof.
  revert acc; induction l as [|x l IH]; intros acc; simpl.
  - by rewrite app_nil_r.
  - rewrite IH. unfold push_back. by rewrite <- app_assoc.
Qed.

(** C9: [generate_mode_line] is, in this order: the atoms
    [parse_display_line] makes of the [modelinefmt] option expanded by
    [expand] or, when either of the two throws, one error-faced placeholder
    atom (the message being written to the debug buffer, and only then); the
    indicators [[+]], [[recording (reg)]], [[new file]], [[no-hooks]],
    [[fifo]], each only under its condition; one space atom; the atoms of
    the input handler's mode line in order; the atom [ - name@[session]].
    The line is never empty. *)
Theorem generate_mode_line_layout (c : Client) (b : Buffer) (session : string) :
  let parsed :=
    match expand (opt_modelinefmt (window_options (m_window c)))
                 (ih_context (m_input_handler c)) (m_window c) b with
    | inr expanded => parse_display_line expanded
    | inl err => inl err
    end in
  fst (generate_mode_line c b session) =
    match parsed with
    | inr line => line
    | inl _ => [mkAtom "modelinefmt error, see *debug* buffer"
                       (get_face "Error")]
    end
    ++ indicator (buf_is_modified b) "[+]"
    ++ match ih_recording (m_input_handler c) with
       | Some reg => indicator true ("[recording (" +:+ String reg "" +:+ ")]")
       | None => []
       end
    ++ indicator (Flags_New (buf_flags b)) "[new file]"
    ++ indicator (ctx_user_hooks_disabled (ih_context (m_input_handler c)))
                 "[no-hooks]"
    ++ indicator (Flags_Fifo (buf_flags b)) "[fifo]"
    ++ [mkAtom " " Face_default]
    ++ ih_mode_line (m_input_handler c)
    ++ [mkAtom (" - " +:+ ctx_name (ih_context (m_input_handler c))
                +:+ "@[" +:+ session +:+ "]")
               Face_default]
  /\ snd (generate_mode_line c b session) =
       match parsed with
       | inr _ => []
       | inl err => [ev_write_to_debug_buffer
                       ("Error while parsing modelinefmt: " +:+ err)]
       end
  /\ fst (generate_mode_line c b session) <> [].
Proof.
  assert (Hne : forall (l : DisplayLine) x, l ++ [x] <> []).
  { intros l x; destruct l; discriminate. }
  cbn zeta.
  unfold generate_mode_line, expand_modelinefmt, context_options, context,
    indicator.
  destruct (expand _ _ _ _) as [err|expanded];
    [|destruct (parse_display_line expanded) as [err|line]];
    destruct (buf_is_modified b), (ih_recording (m_input_handler c)),
      (Flags_New (buf_flags b)),
      (ctx_user_hooks_disabled (ih_context (m_input_handler c))),
      (Flags_Fifo (buf_flags b));
    cbn [fst snd]; rewrite fold_left_push_back; unfold push_back;
    (split; [| split; [reflexivity | apply Hne]]);
    repeat rewrite <- app_assoc; reflexivity.
Qed.

(** ** Redraw *)

Lemma redraw_window_frame (c : Client) :
  m_status_line (redraw_window c) = m_status_line c
  /\ m_pending_status_line (redraw_window c) = m_pending_status_line c
  /\ m_mode_line (redraw_window c) = m_mode_line c
  /\ m_menu (redraw_window c) = m_menu c
  /\ m_info (redraw_window c) = m_info c.
Proof.
  unfold redraw_window.
  destruct (window_needs_redraw _ _); [|done].
  destruct (window_update_display_buffer _ _) as [window display].
  repeat case_match; done.
Qed.

(** What the window block sends to the user interface. *)
Lemma redraw_window_calls (c : Client) :
  let window := fst (window_update_display_buffer (m_window c) (context c)) in
  let display := snd (window_update_display_buffer (m_window c) (context c)) in
  ui_calls (m_ui (redraw_window c)) =
    ui_calls (m_ui c) ++
    if window_needs_redraw (m_window c) (context c) then
      [ui_draw display (get_face "Default")] ++
      if bool_decide (window_position (m_window c) <> window_position window)
      then
        (if negb (bool_decide (menu_items (m_menu c) = []))
            && bool_decide (menu_style (m_menu c) = MenuStyle_Inline)
         then [ui_menu_show (menu_items (m_menu c))
                 (window_display_position window (menu_anchor (m_menu c)))
                 (get_face "MenuForeground") (get_face "MenuBackground")
                 (menu_style (m_menu c));
               ui_menu_select (menu_selected (m_menu c))]
         else []) ++
        (if negb (bool_decide (info_content (m_info c) = ""))
            && is_inline (info_style (m_info c))
         then [ui_info_show (info_title (m_info c)) (info_content (m_info c))
                 (window_display_position window (info_anchor (m_info c)))
                 (get_face "Information") (info_style (m_info c))]
         else [])
      else []
    else [].
Proof.
  unfold redraw_window. cbn zeta.
  destruct (window_needs_redraw _ _); [|by rewrite app_nil_r].
  destruct (window_update_display_buffer _ _) as [window display].
  cbn [fst snd m_window set_m_window ui m_ui set_m_ui m_menu m_info].
  repeat case_match; cbn in *; rewrite <- ?app_assoc; try done; congruence.
Qed.

Lemma redraw_window_no_status (c : Client) :
  exists W,
    ui_calls (m_ui (redraw_window c)) = ui_calls (m_ui c) ++ W
    /\ List.filter is_draw_status W = []
    /\ List.filter is_refresh W = [].
Proof.
  eexists; split; [apply redraw_window_calls|].
  cbn zeta. repeat case_match; done.
Qed.

(** C1: [redraw_ifn] calls [draw_status] exactly when the window needed a
    redraw, or the pending status line differs from the one last drawn, or
    the freshly generated mode line differs from the one last drawn; it then
    draws the pending status line and the fresh mode line, which become the
    last-drawn ones (and are left as they were otherwise); [refresh] is
    called exactly once, last, in every case. *)
Theorem redraw_ifn_draw_status_iff (c : Client) (b : Buffer)
    (session : string) :
  let fresh := fst (generate_mode_line (redraw_window c) b session) in
  let c' := fst (redraw_ifn c b session) in
  let calls := issued (m_ui c) (m_ui c') in
  let changed :=
    window_needs_redraw (m_window c) (context c) = true
    \/ m_status_line c <> m_pending_status_line c
    \/ fresh <> m_mode_line c in
  (changed ->
     List.filter is_draw_status calls =
       [ui_draw_status (m_pending_status_line c) fresh (get_face "StatusLine")]
     /\ m_status_line c' = m_pending_status_line c
     /\ m_mode_line c' = fresh)
  /\ (~ changed ->
      List.filter is_draw_status calls = []
      /\ m_status_line c' = m_status_line c
      /\ m_mode_line c' = m_mode_line c)
  /\ List.filter is_refresh calls = [ui_refresh]
  /\ last (ui_calls (m_ui c')) = Some ui_refresh
  /\ m_pending_status_line c' = m_pending_status_line c.
Proof.
  cbn zeta. unfold redraw_ifn, issued.
  destruct (redraw_window_frame c) as (Hs & Hp & Hm & _).
  destruct (redraw_window_no_status c) as (W & HW & Hd & Hr).
  destruct (generate_mode_line (redraw_window c) b session) as [fresh dbg].
  cbn [fst]. rewrite Hs, Hp, Hm.
  destruct (window_needs_redraw (m_window c) (context c)) eqn:Hdirty;
    destruct (bool_decide (m_status_line c <> m_pending_status_line c))
      eqn:Hstatus;
    destruct (bool_decide (fresh <> m_mode_line c)) eqn:Hmode;
    cbn [orb fst ui m_ui set_m_ui ui_call ui_calls m_status_line m_mode_line
         set_m_status_line set_m_mode_line m_pending_status_line];
    rewrite ?Hs, ?Hp, ?Hm, HW, <- ?app_assoc, drop_app_length,
      !List.filter_app, Hd, Hr; cbn;
    try apply bool_decide_eq_true in Hstatus;
    try apply bool_decide_eq_false in Hstatus;
    try apply bool_decide_eq_true in Hmode;
    try apply bool_decide_eq_false in Hmode;
    rewrite ?last_app; cbn;
    (split; [intros Hc | split; [intros Hn|]]); try done;
    try (exfalso; apply Hn; auto; fail).
  destruct Hc as [Hc | [Hc | Hc]]; [done | tauto | tauto].
Qed.

(** After the window block, [redraw_ifn] only sends [draw_status] and
    [refresh], and leaves the menu and the info alone. *)
Lemma redraw_ifn_status_part (c : Client) (b : Buffer) (session : string) :
  exists S,
    ui_calls (m_ui (fst (redraw_ifn c b session))) =
      ui_calls (m_ui (redraw_window c)) ++ S
    /\ List.filter is_menu_show S = []
    /\ List.filter is_info_show S = []
    /\ m_menu (fst (redraw_ifn c b session)) = m_menu (redraw_window c)
    /\ m_info (fst (redraw_ifn c b session)) = m_info (redraw_window c).
Proof.
  unfold redraw_ifn.
  destruct (generate_mode_line (redraw_window c) b session) as [fresh dbg].
  case_match; cbn; rewrite <- ?app_assoc; eexists; (split; [reflexivity|]);
    done.
Qed.

(** C8: within [redraw_ifn] a [menu_show] (an [info_show]) is sent only if
    the window needed a redraw and its position differs after the display
    buffer was updated, and only for a menu with items and the inline style
    (an info with content and an inline style); the call carries the stored
    items (title, content) and style, with the anchor mapped through the
    window's new position.  In every other case no show call is sent.  The
    stored menu and info are unchanged. *)
Theorem redraw_ifn_reanchors_inline_overlays (c : Client) (b : Buffer)
    (session : string) :
  let window := fst (window_update_display_buffer (m_window c) (context c)) in
  let moved :=
    window_needs_redraw (m_window c) (context c)
    && bool_decide (window_position (m_window c) <> window_position window) in
  let c' := fst (redraw_ifn c b session) in
  let calls := issued (m_ui c) (m_ui c') in
  List.filter is_menu_show calls =
    (if moved && negb (bool_decide (menu_items (m_menu c) = []))
        && bool_decide (menu_style (m_menu c) = MenuStyle_Inline)
     then [ui_menu_show (menu_items (m_menu c))
             (window_display_position window (menu_anchor (m_menu c)))
             (get_face "MenuForeground") (get_face "MenuBackground")
             (menu_style (m_menu c))]
     else [])
  /\ List.filter is_info_show calls =
    (if moved && negb (bool_decide (info_content (m_info c) = ""))
        && is_inline (info_style (m_info c))
     then [ui_info_show (info_title (m_info c)) (info_content (m_info c))
             (window_display_position window (info_anchor (m_info c)))
             (get_face "Information") (info_style (m_info c))]
     else [])
  /\ m_menu c' = m_menu c
  /\ m_info c' = m_info c.
Proof.
  cbn zeta. unfold issued.
  destruct (redraw_ifn_status_part c b session)
    as (S & -> & HSm & HSi & -> & ->).
  destruct (redraw_window_frame c) as (_ & _ & _ & -> & ->).
  rewrite redraw_window_calls. cbn zeta.
  rewrite <- app_assoc, drop_app_length, !List.filter_app, HSm, HSi, !app_nil_r.
  destruct (window_needs_redraw (m_window c) (context c)); [|done].
  destruct (bool_decide (window_position (m_window c) <> _)); [|done].
  cbn [andb]. rewrite !List.filter_app.
  repeat case_match; done.
Qed.

(** ** The world's client table *)

Lemma lookup_put_client_eq (this : nat) (c c0 : Client) (w : World) :
  clients w !! this = Some c0 ->
  clients (put_client this c w) !! this = Some c.
Proof.
  intros Hl. cbn. apply list_lookup_insert_eq. by eapply lookup_lt_Some.
Qed.

Lemma lookup_put_client_ne (this j : nat) (c : Client) (w : World) :
  j <> this -> clients (put_client this c w) !! j = clients w !! j.
Proof. intros Hne. cbn. by apply list_lookup_insert_ne. Qed.

Lemma handled_keys_app (this : nat) (l1 l2 : list SysEvent) :
  handled_keys this (l1 ++ l2) = handled_keys this l1 ++ handled_keys this l2.
Proof. apply omap_app. Qed.

Lemma lookup_close_dialogs_on (buffer : BufferId) (cs : list Client) (j : nat) :
  close_dialogs_on buffer cs !! j =
    (fun client =>
       if bool_decide (context_buffer client = buffer)
          && m_buffer_reload_dialog_opened client
       then close_buffer_reload_dialog client else client) <$> cs !! j.
Proof. unfold close_dialogs_on. apply list_lookup_fmap. Qed.

Lemma reload_buffer_spec (this : nat) (w : World) (c : Client)
    (b b' : Buffer) :
  clients w !! this = Some c ->
  buffers w !! context_buffer c = Some b ->
  reload_file_buffer (get_fs_timestamp w) b = inr b' ->
  reload_buffer this w =
    (Ret tt,
     put_client this
       (print_status
          (line_of ("'" +:+ buf_display_name b' +:+ "' reloaded")
                   (get_face "Information")) c)
       (log (ev_reload_file_buffer (context_buffer c))
            (put_buffer (context_buffer c) b' w))).
Proof.
  intros Hc Hb Hr. unfold reload_buffer. rewrite Hc, Hb.
  cbn [get_fs_timestamp log]. by rewrite Hr.
Qed.

Lemma reload_buffer_fails (this : nat) (w : World) (c : Client) (b : Buffer)
    (what : string) :
  clients w !! this = Some c ->
  buffers w !! context_buffer c = Some b ->
  reload_file_buffer (get_fs_timestamp w) b = inl what ->
  reload_buffer this w =
    (Raise (runtime_error what),
     log (ev_reload_file_buffer (context_buffer c)) w).
Proof.
  intros Hc Hb Hr. unfold reload_buffer. rewrite Hc, Hb.
  cbn [get_fs_timestamp log]. by rewrite Hr.
Qed.

(** ** The reload dialog *)

(** C2: [check_if_buffer_needs_reloading] returns with the world as it is
    when the dialog is already opened, the buffer has no [File] flag, the
    [autoreload] option is [No], or the timestamp of the file is invalid or
    the one the buffer recorded.  Otherwise with [Yes] it is [reload_buffer]
    and no dialog opens; with [Ask] it shows a prompt-style info whose title
    and body contain the buffer's display name, sets the dialog flag and
    installs the one-shot handler, so that the next key handed to the input
    handler reaches [on_buffer_reload_key] and not the engine. *)
Theorem check_if_buffer_needs_reloading_cases (this : nat) (w : World)
    (c : Client) (buffer : Buffer) :
  clients w !! this = Some c ->
  buffers w !! context_buffer c = Some buffer ->
  let ts := get_fs_timestamp w (buf_name buffer) in
  let policy := opt_autoreload (context_options c) in
  let w' := snd (check_if_buffer_needs_reloading this w) in
  let unchanged :=
    m_buffer_reload_dialog_opened c = true
    \/ Flags_File (buf_flags buffer) = false
    \/ policy = Autoreload_No
    \/ ts = InvalidTime
    \/ ts = buf_fs_timestamp buffer in
  (unchanged -> check_if_buffer_needs_reloading this w = (Ret tt, w))
  /\ (~ unchanged -> policy = Autoreload_Yes ->
      check_if_buffer_needs_reloading this w = reload_buffer this w
      /\ sys w' = sys w ++ [ev_reload_file_buffer (context_buffer c)]
      /\ exists c', clients w' !! this = Some c'
           /\ m_buffer_reload_dialog_opened c' = false
           /\ m_ui c' = m_ui c
           /\ m_info c' = m_info c
           /\ m_input_handler c' = m_input_handler c)
  /\ (~ unchanged -> policy = Autoreload_Ask ->
      fst (check_if_buffer_needs_reloading this w) = Ret tt
      /\ exists c' title body,
        clients w' !! this = Some c'
        /\ m_buffer_reload_dialog_opened c' = true
        /\ issued (m_ui c) (m_ui c') =
             [ui_info_show title body origin (get_face "Information")
                           InfoStyle_Prompt]
        /\ contains (buf_display_name buffer) title
        /\ contains (buf_display_name buffer) body
        /\ ih_mode (m_input_handler c') = Mode_NextKey cb_on_buffer_reload_key
        /\ (forall key,
              handle_key this key w' =
                on_buffer_reload_key this key
                  (put_client this
                     (set_m_input_handler c'
                        (reset_normal_mode (m_input_handler c')))
                     (log (ev_handle_key this key) w')))
        /\ buffers w' = buffers w
        /\ sys w' = sys w
        /\ forall j, j <> this -> clients w' !! j = clients w !! j).
Proof.
  intros Hc Hb. cbn zeta.
  unfold check_if_buffer_needs_reloading. rewrite Hc, Hb.
  destruct (m_buffer_reload_dialog_opened c) eqn:Hopened.
  { split; [done|]. split; intros Hn; exfalso; apply Hn; auto. }
  destruct (Flags_File (buf_flags buffer)) eqn:Hfile; cbn [negb orb]; cycle 1.
  { split; [done|]. split; intros Hn; exfalso; apply Hn; auto. }
  destruct (bool_decide (opt_autoreload (context_options c) = Autoreload_No))
    eqn:Hno.
  { apply bool_decide_eq_true in Hno.
    split; [done|]. split; intros Hn; exfalso; apply Hn; auto. }
  apply bool_decide_eq_false in Hno.
  destruct (bool_decide (get_fs_timestamp w (buf_name buffer) = InvalidTime))
    eqn:Hinv.
  { apply bool_decide_eq_true in Hinv.
    split; [done|]. split; intros Hn; exfalso; apply Hn; auto. }
  apply bool_decide_eq_false in Hinv.
  destruct (bool_decide (get_fs_timestamp w (buf_name buffer)
                         = buf_fs_timestamp buffer)) eqn:Hsame.
  { apply bool_decide_eq_true in Hsame.
    split; [done|]. split; intros Hn; exfalso; apply Hn; auto 6. }
  apply bool_decide_eq_false in Hsame. cbn [orb].
  split; [intros [?|[?|[?|[?|?]]]]; done|].
  split; intros _ Hpol; rewrite Hpol.
  - rewrite bool_decide_eq_false_2 by done.
    split; [done|].
    destruct (reload_file_buffer (get_fs_timestamp w) buffer)
      as [what|b'] eqn:Hr.
    + rewrite (reload_buffer_fails this w c buffer what Hc Hb Hr).
      split; [done|]. by exists c.
    + rewrite (reload_buffer_spec this w c buffer b' Hc Hb Hr).
      split; [done|]. eexists. split; [by eapply lookup_put_client_eq|done].
  - rewrite bool_decide_eq_true_2 by done. split; [done|].
    eexists _, _, _. split; [by eapply lookup_put_client_eq|].
    split; [done|]. split.
    { unfold issued. cbn. by rewrite drop_app_length. }
    split; [by exists "reload '", "' ?"|].
    split; [by eexists "'", _|].
    split; [done|]. split.
    { intros key. unfold handle_key. cbn [snd].
      erewrite lookup_put_client_eq by done. done. }
    split; [done|]. split; [done|].
    intros j Hj. by apply lookup_put_client_ne.
Qed.

(** C4: on a key that is neither [y], [<ret>], [n] nor [<esc>],
    [on_buffer_reload_key] returns having set the pending status line to the
    error-faced ['key' is not a valid choice] and installed the one-shot
    handler again; nothing else changes: the buffers (hence the recorded
    timestamp) and the effect log (hence no reload) are as before, every
    client keeps its dialog flag, and the other clients are untouched. *)
Theorem on_buffer_reload_key_invalid (this : nat) (key : Key) (w : World)
    (c : Client) (b : Buffer) :
  clients w !! this = Some c ->
  buffers w !! context_buffer c = Some b ->
  key <> key_of_char "y" -> key <> ctrl "m" ->
  key <> key_of_char "n" -> key <> Key_Escape ->
  let w' := snd (on_buffer_reload_key this key w) in
  fst (on_buffer_reload_key this key w) = Ret tt
  /\ buffers w' = buffers w
  /\ sys w' = sys w
  /\ get_fs_timestamp w' = get_fs_timestamp w
  /\ free_windows w' = free_windows w
  /\ (forall j, j <> this -> clients w' !! j = clients w !! j)
  /\ (forall j cj, clients w !! j = Some cj ->
        exists cj', clients w' !! j = Some cj'
          /\ m_buffer_reload_dialog_opened cj'
             = m_buffer_reload_dialog_opened cj
          /\ m_ui cj' = m_ui cj)
  /\ exists c',
      clients w' !! this = Some c'
      /\ m_pending_status_line c' =
           line_of ("'" +:+ key_to_str key +:+ "' is not a valid choice")
                   (get_face "Error")
      /\ m_input_handler c' =
           on_next_key cb_on_buffer_reload_key (m_input_handler c)
      /\ m_buffer_reload_dialog_opened c' = m_buffer_reload_dialog_opened c
      /\ m_ui c' = m_ui c /\ m_window c' = m_window c
      /\ m_info c' = m_info c /\ m_menu c' = m_menu c
      /\ m_pending_keys c' = m_pending_keys c
      /\ m_status_line c' = m_status_line c
      /\ m_mode_line c' = m_mode_line c
      /\ m_last_buffer c' = m_last_buffer c.
Proof.
  intros Hc Hb Hy Hret Hn Hesc. cbn zeta.
  unfold on_buffer_reload_key. rewrite Hc, Hb.
  rewrite !bool_decide_eq_false_2 by done. cbn [orb fst snd].
  repeat (split; [done|]).
  split; [intros j Hj; by apply lookup_put_client_ne|].
  split.
  - intros j cj Hj. destruct (decide (j = this)) as [->|Hne].
    + eexists. split; [by eapply lookup_put_client_eq|].
      rewrite Hc in Hj. by injection Hj as <-.
    + exists cj. by rewrite lookup_put_client_ne.
  - eexists. split; [by eapply lookup_put_client_eq|done].
Qed.

(** Comparisons between the literal keys of the dialog evaluate. *)
Ltac decide_keys :=
  repeat match goal with
         | |- context [bool_decide (?a = ?b)] =>
             let v := eval vm_compute in (bool_decide (a = b)) in
             change (bool_decide (a = b)) with v
         end.

(** [on_buffer_reload_key] on a confirm key is the reload followed by the
    closing loop. *)
Lemma on_buffer_reload_key_confirm (this : nat) (key : Key) (w : World)
    (c : Client) (b : Buffer) :
  clients w !! this = Some c ->
  buffers w !! context_buffer c = Some b ->
  key = key_of_char "y" \/ key = ctrl "m" ->
  on_buffer_reload_key this key w =
    bind (reload_buffer this)
         (fun _ => lift (fun w =>
            set_clients w (close_dialogs_on (context_buffer c) (clients w))))
         w.
Proof.
  intros Hc Hb Hkey. unfold on_buffer_reload_key. rewrite Hc, Hb.
  destruct Hkey as [-> | ->]; decide_keys; reflexivity.
Qed.

(** The clients after a decline key, or a confirm key whose reload
    returned: [this] got a status line, then the dialogs on the buffer were
    closed. *)
Lemma on_buffer_reload_key_resolved (this : nat) (key : Key) (w : World)
    (c : Client) (b : Buffer) :
  clients w !! this = Some c ->
  buffers w !! context_buffer c = Some b ->
  ((key = key_of_char "y" \/ key = ctrl "m")
   /\ exists b', reload_file_buffer (get_fs_timestamp w) b = inr b')
  \/ key = key_of_char "n" \/ key = Key_Escape ->
  exists status,
    fst (on_buffer_reload_key this key w) = Ret tt
    /\ clients (snd (on_buffer_reload_key this key w)) =
         close_dialogs_on (context_buffer c)
           (<[this := print_status status c]> (clients w)).
Proof.
  intros Hc Hb [[Hkey [b' Hr]] | Hkey].
  - rewrite (on_buffer_reload_key_confirm this key w c b Hc Hb Hkey).
    unfold bind. rewrite (reload_buffer_spec this w c b b' Hc Hb Hr).
    eexists. split; reflexivity.
  - unfold on_buffer_reload_key. rewrite Hc, Hb.
    destruct Hkey as [-> | ->]; decide_keys; cbn [orb];
      eexists; split; reflexivity.
Qed.

(** What the closing loop does to the clients, [this] having got a status
    line first. *)
Lemma close_dialogs_on_resolves (this : nat) (w : World) (c : Client)
    (status : DisplayLine) :
  clients w !! this = Some c ->
  let cs' := close_dialogs_on (context_buffer c)
               (<[this := print_status status c]> (clients w)) in
  (forall j cj,
     clients w !! j = Some cj ->
     context_buffer cj = context_buffer c ->
     m_buffer_reload_dialog_opened cj = true ->
     exists cj',
       cs' !! j = Some cj'
       /\ m_buffer_reload_dialog_opened cj' = false
       /\ issued (m_ui cj) (m_ui cj') = [ui_info_hide]
       /\ ih_mode (m_input_handler cj') = Mode_Normal
       /\ context_buffer cj' = context_buffer cj)
  /\ (forall j cj,
       clients w !! j = Some cj ->
       context_buffer cj <> context_buffer c ->
       cs' !! j = Some cj)
  /\ length cs' = length (clients w).
Proof.
  intros Hc. cbn zeta. split; [|split].
  - intros j cj Hj Hbuf Hopen.
    rewrite lookup_close_dialogs_on.
    destruct (decide (j = this)) as [->|Hne].
    + rewrite list_lookup_insert_eq by (by eapply lookup_lt_Some).
      rewrite Hc in Hj. injection Hj as <-. cbn [fmap option_fmap option_map].
      change (context_buffer (print_status status c)) with (context_buffer c).
      change (m_buffer_reload_dialog_opened (print_status status c))
        with (m_buffer_reload_dialog_opened c).
      rewrite Hopen, bool_decide_eq_true_2 by done. cbn [andb].
      eexists. split; [reflexivity|]. split; [done|]. split; [|done].
      unfold issued. cbn. by rewrite drop_app_length.
    + rewrite list_lookup_insert_ne by done. rewrite Hj.
      cbn [fmap option_fmap option_map].
      rewrite Hopen, bool_decide_eq_true_2 by done. cbn [andb].
      eexists. split; [reflexivity|]. split; [done|]. split; [|done].
      unfold issued. cbn. by rewrite drop_app_length.
  - intros j cj Hj Hbuf.
    rewrite lookup_close_dialogs_on.
    destruct (decide (j = this)) as [->|Hne].
    { rewrite Hc in Hj. by injection Hj as <-. }
    rewrite list_lookup_insert_ne by done. rewrite Hj.
    cbn [fmap option_fmap option_map].
    by rewrite bool_decide_eq_false_2.
  - unfold close_dialogs_on. by rewrite length_map, length_insert.
Qed.

(** When [on_buffer_reload_key] returns from a decline key, or from a
    confirm key whose reload returned, the dialog is closed on every client
    whose context has the same buffer and whose dialog is opened: the flag
    is cleared, the client's user interface is told [info_hide], and its
    input handler is back in normal mode.  Clients on another buffer keep
    their flag, interface and input handler. *)
Lemma on_buffer_reload_key_resolves_on_return (this : nat) (key : Key)
    (w : World) (c : Client) (b : Buffer) :
  clients w !! this = Some c ->
  buffers w !! context_buffer c = Some b ->
  ((key = key_of_char "y" \/ key = ctrl "m")
   /\ exists b', reload_file_buffer (get_fs_timestamp w) b = inr b')
  \/ key = key_of_char "n" \/ key = Key_Escape ->
  let w' := snd (on_buffer_reload_key this key w) in
  fst (on_buffer_reload_key this key w) = Ret tt
  /\ (forall j cj,
       clients w !! j = Some cj ->
       context_buffer cj = context_buffer c ->
       m_buffer_reload_dialog_opened cj = true ->
       exists cj',
         clients w' !! j = Some cj'
         /\ m_buffer_reload_dialog_opened cj' = false
         /\ issued (m_ui cj) (m_ui cj') = [ui_info_hide]
         /\ ih_mode (m_input_handler cj') = Mode_Normal
         /\ context_buffer cj' = context_buffer cj)
  /\ (forall j cj,
       clients w !! j = Some cj ->
       context_buffer cj <> context_buffer c ->
       clients w' !! j = Some cj)
  /\ length (clients w') = length (clients w).
Proof.
  intros Hc Hb Hkey. cbn zeta.
  destruct (on_buffer_reload_key_resolved this key w c b Hc Hb Hkey)
    as (status & Hret & ->).
  split; [done|]. by apply close_dialogs_on_resolves.
Qed.

(** C3: the dialog is not resolved when the reload fails.  On a confirm
    key ([y], [<ret>]) with [reload_file_buffer] throwing,
    [on_buffer_reload_key] throws before the loop that closes the dialogs:
    every client is as it was, so each dialog flag that was set stays set
    and no user interface is told [info_hide]; the log only gains the
    reload.  Reached through the one-shot handler, the client that got the
    key is left with the dialog flag set and its input handler in normal
    mode, with no handler installed. *)
Theorem on_buffer_reload_key_failed_reload (this : nat) (key : Key)
    (w : World) (c : Client) (b : Buffer) (what : string) :
  clients w !! this = Some c ->
  buffers w !! context_buffer c = Some b ->
  key = key_of_char "y" \/ key = ctrl "m" ->
  reload_file_buffer (get_fs_timestamp w) b = inl what ->
  on_buffer_reload_key this key w
  = (Raise (runtime_error what),
     log (ev_reload_file_buffer (context_buffer c)) w)
  /\ clients (snd (on_buffer_reload_key this key w)) = clients w
  /\ (m_buffer_reload_dialog_opened c = true ->
      ih_mode (m_input_handler c) = Mode_NextKey cb_on_buffer_reload_key ->
      exists w' c',
        handle_key this key w = (Raise (runtime_error what), w')
        /\ clients w' !! this = Some c'
        /\ m_buffer_reload_dialog_opened c' = true
        /\ ih_mode (m_input_handler c') = Mode_Normal
        /\ m_ui c' = m_ui c
        /\ forall j, j <> this -> clients w' !! j = clients w !! j).
Proof.
  intros Hc Hb Hkey Hr.
  assert (Hfail : forall w0 c0,
    clients w0 !! this = Some c0 ->
    context_buffer c0 = context_buffer c ->
    buffers w0 = buffers w ->
    get_fs_timestamp w0 = get_fs_timestamp w ->
    on_buffer_reload_key this key w0
    = (Raise (runtime_error what),
       log (ev_reload_file_buffer (context_buffer c)) w0)).
  { intros w0 c0 Hc0 Hbuf Hbs Hfs.
    assert (Hb0 : buffers w0 !! context_buffer c0 = Some b)
      by (by rewrite Hbs, Hbuf).
    rewrite (on_buffer_reload_key_confirm this key w0 c0 b Hc0 Hb0 Hkey).
    unfold bind.
    rewrite (reload_buffer_fails this w0 c0 b what Hc0 Hb0)
      by (by rewrite Hfs).
    by rewrite Hbuf. }
  split; [by apply (Hfail w c)|]. split; [by rewrite (Hfail w c)|].
  intros Hopen Hmode. unfold handle_key. rewrite Hc, Hmode.
  cbn [run_callback].
  erewrite Hfail; [|by eapply lookup_put_client_eq|done..].
  eexists _, _. split; [reflexivity|].
  cbn [clients log put_client set_clients].
  split; [apply list_lookup_insert_eq; by eapply lookup_lt_Some|].
  do 3 (split; [done|]).
  intros j Hj. by apply list_lookup_insert_ne.
Qed.

Lemma close_dialogs_on_window (buffer : BufferId) (cs : list Client) (j : nat)
    (cj : Client) :
  cs !! j = Some cj ->
  exists cj', close_dialogs_on buffer cs !! j = Some cj'
              /\ m_window cj' = m_window cj.
Proof.
  intros Hj. rewrite lookup_close_dialogs_on, Hj. cbn.
  case_match; eexists; (split; [reflexivity|done]).
Qed.

(** C5: a decline key ([n], [<esc>]) records on the buffer the timestamp the
    file has now and sets the status line ['name' kept]; the filesystem
    being as it was, a following [check_if_buffer_needs_reloading], from
    this client or any client on the same buffer, changes nothing, so the
    dialog does not open again. *)
Theorem decline_suppresses_reprompt (this : nat) (key : Key) (w : World)
    (c : Client) (b : Buffer) :
  clients w !! this = Some c ->
  buffers w !! context_buffer c = Some b ->
  key = key_of_char "n" \/ key = Key_Escape ->
  let w1 := snd (on_buffer_reload_key this key w) in
  fst (on_buffer_reload_key this key w) = Ret tt
  /\ buffers w1 !! context_buffer c =
      Some (set_fs_timestamp b (get_fs_timestamp w (buf_name b)))
  /\ (exists c1, clients w1 !! this = Some c1
        /\ m_pending_status_line c1 =
             line_of ("'" +:+ buf_display_name b +:+ "' kept")
                     (get_face "Information"))
  /\ get_fs_timestamp w1 = get_fs_timestamp w
  /\ (forall j cj,
        clients w !! j = Some cj ->
        context_buffer cj = context_buffer c ->
        check_if_buffer_needs_reloading j w1 = (Ret tt, w1)).
Proof.
  intros Hc Hb Hkey. cbn zeta.
  assert (Hlt : context_buffer c < length (buffers w))
    by (by eapply lookup_lt_Some).
  assert (Hw1 : on_buffer_reload_key this key w =
    (Ret tt,
     set_clients
      (put_client this
         (print_status (line_of ("'" +:+ buf_display_name b +:+ "' kept")
                                (get_face "Information")) c)
         (put_buffer (context_buffer c)
            (set_fs_timestamp b (get_fs_timestamp w (buf_name b))) w))
      (close_dialogs_on (context_buffer c)
         (<[this := print_status
                      (line_of ("'" +:+ buf_display_name b +:+ "' kept")
                               (get_face "Information")) c]> (clients w))))).
  { unfold on_buffer_reload_key. rewrite Hc, Hb.
    destruct Hkey as [-> | ->]; decide_keys; reflexivity. }
  rewrite Hw1. clear Hw1. cbn [fst snd]. split; [done|].
  split; [cbn; by apply list_lookup_insert_eq|].
  split.
  { cbn. rewrite lookup_close_dialogs_on.
    rewrite list_lookup_insert_eq by (by eapply lookup_lt_Some). cbn.
    case_match; eexists; (split; [reflexivity|done]). }
  split; [done|].
  intros j cj Hj Hbuf.
  unfold check_if_buffer_needs_reloading.
  cbn [clients set_clients buffers put_client put_buffer set_buffers
       get_fs_timestamp].
  assert (Hj' : exists cj0,
    <[this := print_status
                (line_of ("'" +:+ buf_display_name b +:+ "' kept")
                         (get_face "Information")) c]> (clients w) !! j
      = Some cj0 /\ m_window cj0 = m_window cj).
  { destruct (decide (j = this)) as [->|Hne].
    - rewrite list_lookup_insert_eq by (by eapply lookup_lt_Some).
      rewrite Hc in Hj. injection Hj as <-. by eexists.
    - rewrite list_lookup_insert_ne by done. by eexists. }
  destruct Hj' as (cj0 & Hj0 & Hwin0).
  destruct (close_dialogs_on_window (context_buffer c) _ j cj0 Hj0)
    as (cj' & -> & Hwin).
  destruct (m_buffer_reload_dialog_opened cj'); [done|].
  unfold context_buffer at 1. rewrite Hwin, Hwin0.
  fold (context_buffer cj). rewrite Hbuf.
  rewrite list_lookup_insert_eq by done.
  case_match; [done|].
  cbn [buf_name buf_fs_timestamp set_fs_timestamp].
  rewrite (bool_decide_eq_true_2
             (get_fs_timestamp w (buf_name b)
              = get_fs_timestamp w (buf_name b))) by done.
  by rewrite orb_true_r.
Qed.

(** ** Changing the buffer *)

(** C10: [change_buffer] closes an opened reload dialog before anything
    else: with the dialog opened it is [close_buffer_reload_dialog] followed
    by [change_buffer], the user interface is told [info_hide] before the
    options of the new window, and the input handler is back in normal
    mode.  In every case the client ends with the dialog flag cleared. *)
Theorem change_buffer_closes_dialog (this : nat) (buffer : BufferId)
    (w : World) (c : Client) (b : Buffer) :
  clients w !! this = Some c ->
  buffers w !! buffer = Some b ->
  let w' := change_buffer this buffer w in
  (exists c',
     clients w' !! this = Some c'
     /\ m_buffer_reload_dialog_opened c' = false
     /\ m_last_buffer c' = Some (context_buffer c)
     /\ (m_buffer_reload_dialog_opened c = true ->
         ih_mode (m_input_handler c') = Mode_Normal
         /\ exists o, issued (m_ui c) (m_ui c')
                      = [ui_info_hide; ui_set_ui_options o])
     /\ (m_buffer_reload_dialog_opened c = false ->
         ih_mode (m_input_handler c') = ih_mode (m_input_handler c)
         /\ exists o, issued (m_ui c) (m_ui c') = [ui_set_ui_options o]))
  /\ (m_buffer_reload_dialog_opened c = true ->
      w' = change_buffer this buffer
             (put_client this (close_buffer_reload_dialog c) w)).
Proof.
  intros Hc Hb. cbn zeta. split.
  - unfold change_buffer. rewrite Hc, Hb.
    destruct (get_free_window buffer _) as [[window sels] free] eqn:Hfree.
    eexists. split; [by eapply lookup_put_client_eq|].
    destruct (m_buffer_reload_dialog_opened c) eqn:Hopen; cbn;
      (split; [done|]); (split; [done|]);
      (split; intros Heq; [|]); try done;
      (split; [done|]); eexists; unfold issued; cbn;
      rewrite <- ?app_assoc; by rewrite drop_app_length.
  - intros Hopen. unfold change_buffer.
    erewrite (lookup_put_client_eq this _ c w) by done.
    rewrite Hc, Hb, Hopen. cbn.
    destruct (get_free_window buffer _) as [[window sels] free].
    cbn. unfold put_client, set_clients, log. cbn.
    by rewrite Hb, list_insert_insert_eq.
Qed.

(** ** Key dispatch *)

(** C6: in [Urgent] mode [handle_available_input] takes one key from the
    input source, whatever the pending queue holds.  The interrupt key sends
    [SIGINT] to the process group and leaves the queue alone; any other key
    is appended to the queue.  No key reaches an input handler, and the
    client's input handler is unchanged. *)
Theorem handle_available_input_urgent (fuel this : nat) (w : World)
    (c : Client) (key : Key) (ui' : UserInterface) :
  clients w !! this = Some c ->
  get_key (m_ui c) = (key, ui') ->
  exists w' c',
    handle_available_input fuel this Urgent w = (Ret tt, w')
    /\ clients w' !! this = Some c'
    /\ m_ui c' = ui'
    /\ ui_input ui' = tail (ui_input (m_ui c))
    /\ ui_calls ui' = ui_calls (m_ui c)
    /\ (key = ctrl "c" ->
        sys w' = sys w ++ [ev_killpg_SIGINT]
        /\ m_pending_keys c' = m_pending_keys c)
    /\ (key <> ctrl "c" ->
        sys w' = sys w
        /\ m_pending_keys c' = m_pending_keys c ++ [key])
    /\ (forall j, handled_keys j (sys w') = handled_keys j (sys w))
    /\ m_input_handler c' = m_input_handler c
    /\ (forall j, j <> this -> clients w' !! j = clients w !! j)
    /\ buffers w' = buffers w.
Proof.
  intros Hc Hget. unfold handle_available_input. rewrite Hc.
  cbn [bool_decide decide_rel]. rewrite Hget.
  assert (Hsrc : ui_input ui' = tail (ui_input (m_ui c))
                 /\ ui_calls ui' = ui_calls (m_ui c)).
  { unfold get_key in Hget.
    destruct (ui_input (m_ui c)) as [|k input] eqn:Hin;
      injection Hget as <- <-; cbn; by rewrite ?Hin. }
  destruct Hsrc as [Hsrc1 Hsrc2].
  destruct (bool_decide (key = ctrl "c")) eqn:Hk.
  - apply bool_decide_eq_true in Hk.
    eexists _, _. split; [reflexivity|].
    split; [by eapply lookup_put_client_eq|].
    do 3 (split; [done|]). split; [done|]. split; [done|].
    split.
    { intros j. cbn [sys log put_client set_clients].
      rewrite handled_keys_app. cbn. by rewrite app_nil_r. }
    split; [done|]. split; [|done].
    intros j Hj. by apply lookup_put_client_ne.
  - apply bool_decide_eq_false in Hk.
    eexists _, _. split; [reflexivity|].
    split; [by eapply lookup_put_client_eq|].
    do 3 (split; [done|]). split; [done|]. split; [done|].
    split; [done|]. split; [done|]. split; [|done].
    intros j Hj. by apply lookup_put_client_ne.
Qed.

(** *** What the dispatch of one key keeps *)






(** *** The dispatch loop *)

Lemma available_keys_of (mode : EventMode) (c c' : Client) :
  keys_of c' = keys_of c -> available mode c' = available mode c.
Proof. unfold keys_of, available. by intros [= -> ->]. Qed.

Lemma get_next_key_available (mode : EventMode) (c : Client) :
  match available mode c with
  | [] => get_next_key mode c = (None, c)
  | k :: rest =>
      exists c1, get_next_key mode c = (Some k, c1)
                 /\ available mode c1 = rest
  end.
Proof.
  unfold available, get_next_key, is_key_available, get_key.
  destruct (m_pending_keys c) as [|k pending] eqn:Hp; cbn [app].
  - destruct mode; cbn [bool_decide decide_rel negb andb];
      try (rewrite ?bool_decide_eq_true_2, ?bool_decide_eq_false_2 by done);
      cbn [negb andb]; try done;
      destruct (ui_input (m_ui c)) as [|k input] eqn:Hi; try done;
      eexists; (split; [reflexivity|]); cbn; by rewrite Hp.
  - eexists. split; [reflexivity|]. reflexivity.
Qed.




(** * Further properties of the client *)

(** ** Environment variables *)

(** X10: A name that no pair carries yields the empty string; otherwise
    [get_env_var] yields the value of the first pair with that name, later
    pairs with the same name being shadowed. *)
Theorem get_env_var_first_binding (before after : list (string * string))
    (name value : string) :
  Forall (fun it => fst it <> name) before ->
  get_env_var before name = ""
  /\ get_env_var (before ++ (name, value) :: after) name = value.
Proof.
  intros Hbefore. unfold get_env_var.
  induction Hbefore as [|it before Hit Hbefore IH].
  - cbn. by rewrite bool_decide_eq_true_2.
  - cbn [app List.find]. by rewrite bool_decide_eq_false_2.
Qed.

(** ** More on the reload dialog *)

(** X11: A confirm key whose reload returns reloads the context's buffer
    exactly once: [on_buffer_reload_key] returns, the buffer store holds the
    reloaded buffer, the log gains one reload and nothing else, and the
    pending status line is ['name' reloaded] with the display name the
    buffer has after the reload. *)
Theorem confirm_reloads_once (this : nat) (key : Key) (w : World)
    (c : Client) (b b' : Buffer) :
  clients w !! this = Some c ->
  buffers w !! context_buffer c = Some b ->
  key = key_of_char "y" \/ key = ctrl "m" ->
  reload_file_buffer (get_fs_timestamp w) b = inr b' ->
  let w' := snd (on_buffer_reload_key this key w) in
  fst (on_buffer_reload_key this key w) = Ret tt
  /\ sys w' = sys w ++ [ev_reload_file_buffer (context_buffer c)]
  /\ buffers w' = <[context_buffer c := b']> (buffers w)
  /\ get_fs_timestamp w' = get_fs_timestamp w
  /\ exists c',
      clients w' !! this = Some c'
      /\ m_pending_status_line c' =
           [mkAtom ("'" +:+ buf_display_name b' +:+ "' reloaded")
                   (get_face "Information")]
      /\ m_pending_keys c' = m_pending_keys c
      /\ m_window c' = m_window c.
Proof.
  intros Hc Hb Hkey Hr. cbn zeta.
  rewrite (on_buffer_reload_key_confirm this key w c b Hc Hb Hkey).
  unfold bind. rewrite (reload_buffer_spec this w c b b' Hc Hb Hr).
  cbn [lift fst snd]. do 4 (split; [done|]).
  cbn [clients set_clients put_client log put_buffer set_buffers].
  rewrite lookup_close_dialogs_on.
  rewrite list_lookup_insert_eq by (by eapply lookup_lt_Some).
  cbn [fmap option_fmap option_map].
  case_match; eexists; (split; [reflexivity|done]).
Qed.

(** X12: With the [autoreload] option at [No] or [Ask], checking twice is
    checking once: the check returns, and a second check leaves the world
    as the first one made it, so a dialog that is open is not opened
    again. *)
Theorem check_if_buffer_needs_reloading_idempotent (this : nat) (w : World) :
  (forall c, clients w !! this = Some c ->
             opt_autoreload (context_options c) <> Autoreload_Yes) ->
  let w1 := snd (check_if_buffer_needs_reloading this w) in
  fst (check_if_buffer_needs_reloading this w) = Ret tt
  /\ check_if_buffer_needs_reloading this w1 = (Ret tt, w1).
Proof.
  intros Hpolicy. cbn zeta.
  assert (Hout : check_if_buffer_needs_reloading this w = (Ret tt, w)
                 \/ fst (check_if_buffer_needs_reloading this w) = Ret tt
                    /\ exists c',
                         clients (snd (check_if_buffer_needs_reloading this w))
                           !! this = Some c'
                         /\ m_buffer_reload_dialog_opened c' = true).
  { unfold check_if_buffer_needs_reloading.
    destruct (clients w !! this) as [c|] eqn:Hc; [|by left].
    specialize (Hpolicy c eq_refl).
    destruct (m_buffer_reload_dialog_opened c); [by left|].
    destruct (buffers w !! context_buffer c) as [b|]; [|by left].
    destruct (opt_autoreload (context_options c)); [done| |].
    { rewrite orb_true_r. by left. }
    destruct (negb _ || _); [by left|].
    destruct (bool_decide _ || _); [by left|].
    right. split; [done|].
    eexists. split; [by eapply lookup_put_client_eq|done]. }
  destruct Hout as [Hsame | (Hret & c' & Hc' & Hopen)].
  - by rewrite !Hsame.
  - split; [done|].
    unfold check_if_buffer_needs_reloading at 1. by rewrite Hc', Hopen.
Qed.

(** ** More on changing the buffer *)

(** X13: [change_buffer] hands the old window and the selections to the free
    windows before it asks for a window on the new buffer; the log gains, in
    this order, the unregistration from the old window's options, the
    registration with the new one's and the [WinDisplay] hook with the new
    buffer's name.  Pending keys, status and mode lines, menu and info of
    the client, the other clients and the buffers are left alone. *)
Theorem change_buffer_frame (this : nat) (buffer : BufferId) (w : World)
    (c : Client) (b : Buffer) :
  clients w !! this = Some c ->
  buffers w !! buffer = Some b ->
  let w' := change_buffer this buffer w in
  let found :=
    get_free_window buffer
      (free_windows w ++ [(m_window c, ctx_selections (context c))]) in
  sys w' = sys w ++ [ev_unregister_watcher this; ev_register_watcher this;
                     ev_run_hook this "WinDisplay" (buf_name b)]
  /\ buffers w' = buffers w
  /\ free_windows w' = snd found
  /\ (forall j, j <> this -> clients w' !! j = clients w !! j)
  /\ exists c',
      clients w' !! this = Some c'
      /\ m_window c' = window_set_dimensions (fst (fst found))
                                             (ui_dimensions (m_ui c))
      /\ ctx_selections (context c') = snd (fst found)
      /\ ctx_name (context c') = ctx_name (context c)
      /\ m_pending_keys c' = m_pending_keys c
      /\ ui_input (m_ui c') = ui_input (m_ui c)
      /\ m_status_line c' = m_status_line c
      /\ m_pending_status_line c' = m_pending_status_line c
      /\ m_mode_line c' = m_mode_line c
      /\ m_menu c' = m_menu c
      /\ m_info c' = m_info c.
Proof.
  intros Hc Hb. cbn zeta. unfold change_buffer. rewrite Hc, Hb.
  unfold push_back, context.
  destruct (m_buffer_reload_dialog_opened c);
    cbn [m_window set_m_last_buffer m_input_handler free_windows log
         close_buffer_reload_dialog set_m_input_handler ui set_m_ui
         set_m_buffer_reload_dialog_opened reset_normal_mode ih_context];
    destruct (get_free_window buffer _) as [[window sels] free];
    cbn [fst snd];
    (split; [cbn; by rewrite <- !app_assoc|]);
    do 2 (split; [done|]);
    (split; [intros j Hj; cbn [clients log put_client set_clients];
             by apply list_lookup_insert_ne|]);
    eexists;
    (split; [cbn [clients log put_client set_clients];
             apply list_lookup_insert_eq; by eapply lookup_lt_Some|]);
    done.
Qed.

(** ** More on redrawing *)

Lemma generate_mode_line_ext (c1 c2 : Client) (b : Buffer) (session : string) :
  m_window c1 = m_window c2 ->
  m_input_handler c1 = m_input_handler c2 ->
  generate_mode_line c1 b session = generate_mode_line c2 b session.
Proof.
  intros Hw Hi.
  unfold generate_mode_line, expand_modelinefmt, context_options, context.
  by rewrite Hw, Hi.
Qed.

(** After [redraw_ifn] the last-drawn lines are the pending status line and
    the mode line just generated, whether or not they were drawn. *)
Lemma redraw_ifn_baseline (c : Client) (b : Buffer) (session : string) :
  let c1 := fst (redraw_ifn c b session) in
  m_status_line c1 = m_pending_status_line c1
  /\ m_mode_line c1 = fst (generate_mode_line (redraw_window c) b session)
  /\ m_window c1 = m_window (redraw_window c)
  /\ m_input_handler c1 = m_input_handler (redraw_window c).
Proof.
  cbn zeta. unfold redraw_ifn.
  destruct (generate_mode_line (redraw_window c) b session) as [fresh dbg].
  destruct (window_needs_redraw (m_window c) (context c)); [done|].
  cbn [orb].
  destruct (bool_decide (m_status_line (redraw_window c)
                         <> m_pending_status_line (redraw_window c)))
    eqn:Hs; [done|].
  destruct (bool_decide (fresh <> m_mode_line (redraw_window c))) eqn:Hm;
    [done|].
  apply bool_decide_eq_false in Hs, Hm. cbn.
  split; [by destruct (decide (m_status_line (redraw_window c)
                               = m_pending_status_line (redraw_window c)))|].
  split; [|done].
  by destruct (decide (fresh = m_mode_line (redraw_window c))).
Qed.

(** X14: A redraw right after a redraw, the window then not asking for one,
    only refreshes: nothing is drawn again and the client is otherwise as
    the first redraw left it. *)
Theorem redraw_ifn_twice (c : Client) (b : Buffer) (session : string) :
  let c1 := fst (redraw_ifn c b session) in
  window_needs_redraw (m_window c1) (context c1) = false ->
  fst (redraw_ifn c1 b session) = ui c1 ui_refresh
  /\ issued (m_ui c1) (m_ui (fst (redraw_ifn c1 b session))) = [ui_refresh].
Proof.
  cbn zeta. intros Hclean.
  destruct (redraw_ifn_baseline c b session) as (Hs & Hm & Hw & Hi).
  set (c1 := fst (redraw_ifn c b session)) in *.
  assert (Hrw : redraw_window c1 = c1).
  { unfold redraw_window. by rewrite Hclean. }
  assert (Hgen : generate_mode_line c1 b session
                 = generate_mode_line (redraw_window c) b session)
    by (by apply generate_mode_line_ext).
  assert (Hfst : fst (redraw_ifn c1 b session) = ui c1 ui_refresh).
  { unfold redraw_ifn. rewrite Hrw, Hclean, Hgen.
    destruct (generate_mode_line (redraw_window c) b session)
      as [fresh dbg]. cbn [fst] in Hm.
    rewrite (bool_decide_eq_false_2 (m_status_line c1
                                     <> m_pending_status_line c1))
      by (intros Hne; by apply Hne).
    rewrite (bool_decide_eq_false_2 (fresh <> m_mode_line c1))
      by (intros Hne; by apply Hne).
    done. }
  split; [done|]. rewrite Hfst. unfold issued. cbn.
  by rewrite drop_app_length.
Qed.

(** ** Overlays across a redraw *)

Lemma redraw_ifn_status_no_menu (c : Client) (b : Buffer) (session : string) :
  exists S,
    ui_calls (m_ui (fst (redraw_ifn c b session))) =
      ui_calls (m_ui (redraw_window c)) ++ S
    /\ List.filter is_menu_call S = []
    /\ List.filter is_info_show S = [].
Proof.
  unfold redraw_ifn.
  destruct (generate_mode_line (redraw_window c) b session) as [fresh dbg].
  case_match; cbn; rewrite <- ?app_assoc; eexists; (split; [reflexivity|]);
    done.
Qed.

(** X15: An inline menu that was shown, and an item of it selected, comes back
    whole when a redraw moves the window: the same items, the anchor mapped
    through the window's new position, and the same selected item; a menu
    shown and not yet selected in comes back with no item selected ([-1]). *)
Theorem menu_reanchored_with_selection (c : Client) (b : Buffer)
    (session : string) (choices : list DisplayLine) (anchor : ByteCoord)
    (selected : Z) :
  choices <> [] ->
  window_needs_redraw (m_window c) (context c) = true ->
  let window := fst (window_update_display_buffer (m_window c) (context c)) in
  window_position (m_window c) <> window_position window ->
  let shown := menu_show choices anchor MenuStyle_Inline c in
  let reshown sel :=
    [ui_menu_show choices (window_display_position window anchor)
       (get_face "MenuForeground") (get_face "MenuBackground")
       MenuStyle_Inline;
     ui_menu_select sel] in
  List.filter is_menu_call
    (issued (m_ui (menu_select selected shown))
            (m_ui (fst (redraw_ifn (menu_select selected shown) b session))))
  = reshown selected
  /\ List.filter is_menu_call
       (issued (m_ui shown) (m_ui (fst (redraw_ifn shown b session))))
     = reshown (-1)%Z.
Proof.
  intros Hchoices Hdirty window Hmoved. cbn zeta.
  assert (Hgen : forall c1 : Client,
    m_window c1 = m_window c -> context c1 = context c ->
    menu_items (m_menu c1) = choices ->
    menu_style (m_menu c1) = MenuStyle_Inline ->
    List.filter is_menu_call
      (issued (m_ui c1) (m_ui (fst (redraw_ifn c1 b session))))
    = [ui_menu_show choices
         (window_display_position window (menu_anchor (m_menu c1)))
         (get_face "MenuForeground") (get_face "MenuBackground")
         MenuStyle_Inline;
       ui_menu_select (menu_selected (m_menu c1))]).
  { intros c1 Hw Hctx Hitems Hstyle. unfold issued.
    destruct (redraw_ifn_status_no_menu c1 b session) as (S & -> & HS & _).
    rewrite redraw_window_calls. cbn zeta.
    rewrite Hw, Hctx, Hdirty, Hitems, Hstyle.
    fold window. rewrite (bool_decide_eq_true_2 _ Hmoved).
    rewrite (bool_decide_eq_false_2 _ Hchoices).
    rewrite bool_decide_eq_true_2 by done. cbn [negb andb].
    rewrite <- app_assoc, drop_app_length, !List.filter_app, HS.
    case_match; cbn; done. }
  split; by rewrite Hgen.
Qed.

(** X16: After [menu_hide] a redraw sends no menu call, and after [info_hide] no
    [info_show], whatever the window does. *)
Theorem hidden_overlays_stay_hidden (c : Client) (b : Buffer)
    (session : string) :
  List.filter is_menu_call
    (issued (m_ui (menu_hide c))
            (m_ui (fst (redraw_ifn (menu_hide c) b session)))) = []
  /\ List.filter is_info_show
       (issued (m_ui (info_hide c))
               (m_ui (fst (redraw_ifn (info_hide c) b session)))) = [].
Proof.
  split; unfold issued.
  - destruct (redraw_ifn_status_no_menu (menu_hide c) b session)
      as (S & -> & HS & _).
    rewrite redraw_window_calls. cbn zeta.
    rewrite <- app_assoc, drop_app_length, !List.filter_app, HS.
    change (menu_items (m_menu (menu_hide c))) with (@nil DisplayLine).
    rewrite (bool_decide_eq_true_2 (@nil DisplayLine = [])) by done.
    cbn [negb andb].
    repeat case_match; done.
  - destruct (redraw_ifn_status_no_menu (info_hide c) b session)
      as (S & -> & _ & HS).
    rewrite redraw_window_calls. cbn zeta.
    rewrite <- app_assoc, drop_app_length, !List.filter_app, HS.
    change (info_content (m_info (info_hide c))) with "".
    rewrite (bool_decide_eq_true_2 ("" = "")) by done. cbn [negb andb].
    repeat case_match; done.
Qed.


(** ** Failures of the editing engine *)


Lemma forwarded_true (k : Key) :
  forwarded k = true ->
  bool_decide (k = ctrl "c") = false
  /\ bool_decide (k = Key_FocusIn) = false
  /\ bool_decide (k = Key_FocusOut) = false
  /\ bool_decide (modifiers k = Mod_Resize) = false.
Proof.
  unfold forwarded. rewrite !andb_true_iff, !negb_true_iff. tauto.
Qed.

(** The dispatch of the first pending key when the engine throws [e] on
    it: the loop stops with the key consumed and logged. *)
Lemma dispatch_loop_throws (fuel this : nat) (mode : EventMode) (w : World)
    (c : Client) (k : Key) (rest : list Key) (e : exn) :
  clients w !! this = Some c ->
  m_pending_keys c = k :: rest ->
  forwarded k = true ->
  (forall cb, ih_mode (m_input_handler c) <> Mode_NextKey cb) ->
  engine_handle_key k (context c) = Some e ->
  dispatch_loop (S fuel) this mode w
  = (Raise e,
     log (ev_handle_key this k)
         (put_client this (set_m_pending_keys c rest) w)).
Proof.
  intros Hc Hp Hfw Hmode He.
  destruct (forwarded_true k Hfw) as (H1 & H2 & H3 & H4).
  cbn [dispatch_loop]. rewrite Hc. unfold get_next_key. rewrite Hp.
  unfold bind, dispatch_key.
  erewrite lookup_put_client_eq by done. rewrite H1, H2, H3, H4.
  unfold handle_key. erewrite lookup_put_client_eq by done.
  change (m_input_handler (set_m_pending_keys c rest))
    with (m_input_handler c).
  change (context (set_m_pending_keys c rest)) with (context c).
  destruct (ih_mode (m_input_handler c)) as [| n | cb] eqn:Hm;
    [| | by destruct (Hmode cb)]; by rewrite He.
Qed.

(** X18: A [runtime_error] of the engine is contained: the dispatch returns, the
    message becomes the pending status line in the error face and goes to
    the [RuntimeError] hook, which is the last thing done; the key that
    failed was handed to the input handler and is consumed, and the keys
    behind it stay queued. *)
Theorem runtime_error_contained (fuel this : nat) (mode : EventMode)
    (w : World) (c : Client) (k : Key) (rest : list Key) (what : string) :
  clients w !! this = Some c ->
  mode <> Urgent ->
  m_pending_keys c = k :: rest ->
  forwarded k = true ->
  (forall cb, ih_mode (m_input_handler c) <> Mode_NextKey cb) ->
  engine_handle_key k (context c) = Some (runtime_error what) ->
  exists w' c',
    handle_available_input (S fuel) this mode w = (Ret tt, w')
    /\ last (sys w') = Some (ev_run_hook this "RuntimeError" what)
    /\ handled_keys this (sys w') = handled_keys this (sys w) ++ [k]
    /\ clients w' !! this = Some c'
    /\ m_pending_status_line c' = [mkAtom what (get_face "Error")]
    /\ m_pending_keys c' = rest.
Proof.
  intros Hc Hmode Hp Hfw Hih He.
  unfold handle_available_input. rewrite Hc.
  rewrite bool_decide_eq_false_2 by done. unfold try_catch.
  rewrite (dispatch_loop_throws fuel this mode w c k rest _ Hc Hp Hfw Hih He).
  cbn [is_runtime_error on_runtime_error lift].
  cbn [clients log]. erewrite lookup_put_client_eq by done.
  eexists _, _. split; [reflexivity|].
  split; [cbn [sys log]; by rewrite last_snoc|].
  split.
  { cbn [sys log put_client set_clients]. rewrite !handled_keys_app. cbn.
    by rewrite bool_decide_eq_true_2, app_nil_r. }
  split.
  { cbn [clients log put_client set_clients].
    rewrite list_insert_insert_eq. apply list_lookup_insert_eq.
    by eapply lookup_lt_Some. }
  done.
Qed.


(** ** The event modes together *)






(** ** The dialog is modal *)

Lemma resolves_dialog_false (k : Key) :
  resolves_dialog k = false ->
  bool_decide (k = key_of_char "y") || bool_decide (k = ctrl "m") = false
  /\ bool_decide (k = key_of_char "n") || bool_decide (k = Key_Escape)
     = false.
Proof.
  unfold resolves_dialog. rewrite !orb_false_iff. tauto.
Qed.

Lemma dispatch_key_awaiting (this : nat) (k : Key) (w : World) (c : Client)
    (buffer : BufferId) (b : Buffer) (name : string) :
  (forall win, window_buffer (window_force_redraw win) = window_buffer win) ->
  clients w !! this = Some c ->
  buffers w !! buffer = Some b ->
  awaiting buffer name c ->
  resolves_dialog k = false ->
  exists w' c',
    dispatch_key this k w = (Ret tt, w')
    /\ clients w' !! this = Some c'
    /\ awaiting buffer name c'
    /\ keys_of c' = keys_of c
    /\ sys w' = sys w ++ dispatch_event this name k
    /\ buffers w' = buffers w.
Proof.
  intros Hwin Hc Hb (Hopen & Hmode & Hbuf & Hname) Hk.
  destruct (resolves_dialog_false k Hk) as [Hk1 Hk2].
  unfold dispatch_key, dispatch_event. rewrite Hc, Hname.
  destruct (bool_decide (k = ctrl "c")).
  { exists (log ev_killpg_SIGINT w), c. by repeat split. }
  destruct (bool_decide (k = Key_FocusIn)).
  { eexists _, c. by repeat split. }
  destruct (bool_decide (k = Key_FocusOut)).
  { eexists _, c. by repeat split. }
  destruct (bool_decide (modifiers k = Mod_Resize)).
  { eexists _, (force_redraw c). split; [reflexivity|].
    split; [by eapply lookup_put_client_eq|].
    split.
    { repeat split; try done. unfold context_buffer, force_redraw.
      cbn [m_window set_m_window]. by rewrite Hwin. }
    split; [done|]. split; [cbn; by rewrite app_nil_r|done]. }
  unfold handle_key. rewrite Hc, Hmode. cbn [run_callback].
  unfold on_buffer_reload_key.
  erewrite lookup_put_client_eq by done.
  change (context_buffer (set_m_input_handler c
            (reset_normal_mode (m_input_handler c))))
    with (context_buffer c).
  rewrite Hbuf.
  cbn [buffers put_client set_clients log]. rewrite Hb, Hk1, Hk2.
  eexists _, _. split; [reflexivity|].
  split.
  { cbn [clients put_client set_clients log].
    rewrite list_insert_insert_eq. apply list_lookup_insert_eq.
    by eapply lookup_lt_Some. }
  by repeat split.
Qed.

Lemma get_next_key_awaiting (mode : EventMode) (c c1 : Client) (k : Key)
    (buffer : BufferId) (name : string) :
  get_next_key mode c = (Some k, c1) ->
  awaiting buffer name c -> awaiting buffer name c1.
Proof.
  unfold get_next_key, get_key, awaiting.
  destruct (m_pending_keys c); [|by intros [= _ <-]].
  destruct (_ && _); [|done].
  destruct (ui_input (m_ui c)); by intros [= _ <-].
Qed.

Lemma dispatch_loop_awaiting (this : nat) (buffer : BufferId) (b : Buffer)
    (name : string) (fuel : nat) :
  (forall win, window_buffer (window_force_redraw win) = window_buffer win) ->
  forall (w : World) (c : Client),
    clients w !! this = Some c ->
    buffers w !! buffer = Some b ->
    awaiting buffer name c ->
    Forall (fun k => resolves_dialog k = false) (available Normal c) ->
    length (available Normal c) < fuel ->
    exists w' c',
      dispatch_loop fuel this Normal w = (Ret tt, w')
      /\ clients w' !! this = Some c'
      /\ awaiting buffer name c'
      /\ available Normal c' = []
      /\ sys w' = sys w
                  ++ flat_map (dispatch_event this name) (available Normal c)
      /\ buffers w' = buffers w.
Proof.
  intros Hwin.
  induction fuel as [|fuel IH]; intros w c Hc Hb Haw Hks Hlen; [lia|].
  cbn [dispatch_loop]. rewrite Hc.
  pose proof (get_next_key_available Normal c) as Hnext.
  destruct (available Normal c) as [|k rest] eqn:Hav.
  - rewrite Hnext. exists (put_client this c w), c.
    split; [done|]. split; [by eapply lookup_put_client_eq|].
    split; [done|]. split; [done|]. split; [cbn; by rewrite app_nil_r|done].
  - destruct Hnext as (c1 & Hget & Hav1). rewrite Hget.
    pose proof (get_next_key_awaiting _ _ _ _ _ _ Hget Haw) as Haw1.
    apply Forall_cons in Hks as [Hk Hrest].
    assert (Hc1 : clients (put_client this c1 w) !! this = Some c1)
      by (by eapply lookup_put_client_eq).
    destruct (dispatch_key_awaiting this k _ c1 buffer b name Hwin Hc1 Hb
                Haw1 Hk)
      as (w1 & c2 & Hd & Hc2 & Haw2 & Hk2 & Hsys & Hbufs).
    apply (available_keys_of Normal) in Hk2.
    unfold bind. rewrite Hd.
    destruct (IH w1 c2 Hc2) as (w' & c' & Hloop & Hc' & Haw' & Hav' & Hsys'
                                & Hbufs').
    { by rewrite Hbufs. } { done. }
    { by rewrite Hk2, Hav1. } { rewrite Hk2, Hav1. cbn in Hlen. lia. }
    exists w', c'. split; [done|]. split; [done|]. split; [done|].
    split; [done|]. split; [|by rewrite Hbufs', Hbufs].
    rewrite Hsys', Hsys, Hk2, Hav1. cbn [flat_map sys put_client set_clients].
    by rewrite <- app_assoc.
Qed.

(** X22: While the reload dialog is open it is modal: whatever keys arrive that
    are not [y], [<ret>], [n] or [<esc>], a [Normal] dispatch consumes them
    all and returns, none of them reaches the editing engine (so nothing the
    engine would throw is seen), no reload happens and the buffers are
    untouched, and the client ends as it started: flag set and one-shot
    handler installed.  The log gains only what the dispatch of each key
    adds. *)
Theorem dialog_is_modal (fuel this : nat) (w : World) (c : Client)
    (b : Buffer) :
  (forall win, window_buffer (window_force_redraw win) = window_buffer win) ->
  clients w !! this = Some c ->
  buffers w !! context_buffer c = Some b ->
  m_buffer_reload_dialog_opened c = true ->
  ih_mode (m_input_handler c) = Mode_NextKey cb_on_buffer_reload_key ->
  Forall (fun k => resolves_dialog k = false)
         (m_pending_keys c ++ ui_input (m_ui c)) ->
  length (m_pending_keys c ++ ui_input (m_ui c)) < fuel ->
  exists w' c',
    handle_available_input fuel this Normal w = (Ret tt, w')
    /\ clients w' !! this = Some c'
    /\ m_buffer_reload_dialog_opened c' = true
    /\ ih_mode (m_input_handler c') = Mode_NextKey cb_on_buffer_reload_key
    /\ m_pending_keys c' = [] /\ ui_input (m_ui c') = []
    /\ sys w' = sys w
                ++ flat_map (dispatch_event this (ctx_name (context c)))
                            (m_pending_keys c ++ ui_input (m_ui c))
    /\ buffers w' = buffers w.
Proof.
  intros Hwin Hc Hb Hopen Hmode Hks Hfuel.
  destruct (dispatch_loop_awaiting this (context_buffer c) b
              (ctx_name (context c)) fuel Hwin w c Hc Hb)
    as (w' & c' & Hloop & Hc' & (Hopen' & Hmode' & _) & Hav' & Hsys & Hbufs);
    [done..|].
  unfold handle_available_input. rewrite Hc.
  cbn [bool_decide decide_rel]. unfold try_catch. rewrite Hloop.
  exists w', c'. do 4 (split; [done|]).
  unfold available in Hav'. cbn [bool_decide decide_rel] in Hav'.
  apply app_eq_nil in Hav'. by destruct Hav'.
Qed.

End Properties.

(** * Properties of the strings *)

Module StringOpsFacts.
Import StringOps.

Local Open Scope Z_scope.

Lemma equal_iff (lhs rhs : chars) :
  List.length lhs = List.length rhs ->
  equal lhs rhs = true <-> lhs = rhs.
Proof.
  revert rhs; induction lhs as [|x lhs IH]; intros [|y rhs] Hlen;
    cbn in *; try done.
  rewrite andb_true_iff, Z.eqb_eq, IH by congruence.
  split; [by intros [-> ->]|by intros [= -> ->]].
Qed.

Lemma eq_true_iff (lhs rhs : chars) : eq lhs rhs = true <-> lhs = rhs.
Proof.
  unfold eq, length. rewrite andb_true_iff, Z.eqb_eq. split.
  - intros [Hlen Heq]. apply equal_iff; [lia|done].
  - intros ->. split; [done|]. by apply equal_iff.
Qed.

(** X1: [operator==] holds exactly between equal character sequences, and
    [operator!=] exactly between different ones. *)
Theorem eq_iff (lhs rhs : chars) :
  (eq lhs rhs = true <-> lhs = rhs)
  /\ (neq lhs rhs = true <-> lhs <> rhs).
Proof.
  pose proof (eq_true_iff lhs rhs) as Heq.
  split; [done|]. unfold neq. rewrite negb_true_iff.
  destruct (eq lhs rhs); split; try done.
  - intros Hne. exfalso. apply Hne. by apply Heq.
  - intros _ Hne. by apply Heq in Hne.
Qed.

Lemma lt_irrefl (s : chars) : lt s s = false.
Proof.
  induction s as [|x s IH]; [done|]. cbn. by rewrite Z.ltb_irrefl.
Qed.

Lemma lt_trans (a b c : chars) :
  lt a b = true -> lt b c = true -> lt a c = true.
Proof.
  unfold lt. revert b c; induction a as [|x a IH]; intros [|y b] [|z c];
    cbn; try done.
  destruct (Z.ltb_spec x y), (Z.ltb_spec y x), (Z.ltb_spec y z),
    (Z.ltb_spec z y), (Z.ltb_spec x z), (Z.ltb_spec z x);
    try done; try lia.
  apply IH.
Qed.

Lemma lt_trichotomy (a b : chars) :
  lt a b = true \/ a = b \/ lt b a = true.
Proof.
  unfold lt. revert b; induction a as [|x a IH]; intros [|y b]; cbn; auto.
  destruct (Z.ltb_spec x y), (Z.ltb_spec y x); auto; try lia.
  assert (x = y) as -> by lia.
  destruct (IH b) as [? | [-> | ?]]; auto.
Qed.

Lemma lt_asym (a b : chars) : lt a b = true -> lt b a = false.
Proof.
  intros Hab. destruct (lt b a) eqn:Hba; [|done].
  pose proof (lt_trans a b a Hab Hba) as Haa. by rewrite lt_irrefl in Haa.
Qed.

(** X2: [operator<] is a strict total order on character sequences: no string
    is below itself, the order is transitive and asymmetric, and two
    strings are equal or ordered one way. *)
Theorem lt_strict_total_order :
  (forall a, lt a a = false)
  /\ (forall a b c, lt a b = true -> lt b c = true -> lt a c = true)
  /\ (forall a b, lt a b = true -> lt b a = false)
  /\ (forall a b, lt a b = true \/ eq a b = true \/ lt b a = true).
Proof.
  split; [exact lt_irrefl|]. split; [exact lt_trans|].
  split; [exact lt_asym|]. intros a b.
  destruct (lt_trichotomy a b) as [? | [-> | ?]]; auto.
  right; left. by apply eq_true_iff.
Qed.

(** X3: A string is below each of its proper extensions, and nothing is below
    the empty string. *)
Theorem lt_proper_prefix (s : chars) (c : char) (rest : chars) :
  lt s (s ++ c :: rest) = true /\ lt (s ++ c :: rest) s = false
  /\ lt s [] = false.
Proof.
  assert (H1 : lt s (s ++ c :: rest) = true).
  { induction s as [|x s IH]; [done|]. cbn. by rewrite Z.ltb_irrefl. }
  split; [done|]. split; [by apply lt_asym|]. by destruct s.
Qed.

Lemma length_nonneg (s : chars) : 0 <= length s.
Proof. unfold length. lia. Qed.

Lemma length_app (a b : chars) : length (a ++ b) = length a + length b.
Proof. unfold length. rewrite List.length_app. lia. Qed.

(** X4: [substr] with [from] inside the string: the view holds
    [min(length() - from, length)] characters ([length() - from] for a
    negative [length]), they are the characters of [s] from [from] on, and
    with a negative [length] or one that reaches the end the view is
    everything from [from] on. *)
Theorem substr_in_range (s : chars) (from length_ : Z) :
  0 <= from <= length s ->
  length s <= INT_MAX ->
  exists view,
    substr s from length_ = Some view
    /\ length view =
         (if length_ <? 0 then length s - from
          else Z.min (length s - from) length_)
    /\ (exists rest, drop (Z.to_nat from) s = view ++ rest)
    /\ (length_ < 0 \/ length s - from <= length_ ->
        view = drop (Z.to_nat from) s).
Proof.
  intros Hfrom Hmax. unfold substr.
  rewrite (proj2 (Z.leb_le 0 from)), (proj2 (Z.leb_le from (length s)))
    by lia.
  cbn [andb]. eexists. split; [reflexivity|].
  set (k := if length_ <? 0 then INT_MAX else length_).
  assert (Hdrop : length (drop (Z.to_nat from) s) = length s - from).
  { unfold length in *. rewrite length_drop. lia. }
  split; [|split].
  - unfold length in *. rewrite length_take, length_drop. subst k.
    destruct (Z.ltb_spec length_ 0); lia.
  - exists (drop (Z.to_nat (Z.min (length s - from) k))
                 (drop (Z.to_nat from) s)).
    by rewrite take_drop.
  - intros Hall. apply take_ge. unfold length in *. rewrite length_drop.
    subst k. destruct (Z.ltb_spec length_ 0); lia.
Qed.

(** X5: Taking the rest from [a] and then the rest from [b] is taking the rest
    from [a + b]. *)
Theorem substr_substr (s : chars) (a b : Z) :
  0 <= a -> 0 <= b -> a + b <= length s ->
  length s <= INT_MAX ->
  match substr s a (-1) with
  | Some view => substr view b (-1)
  | None => None
  end = substr s (a + b) (-1).
Proof.
  intros Ha Hb Hab Hmax. unfold substr. cbn [Z.ltb Z.compare].
  assert (Hlen : forall n, 0 <= n <= length s ->
            length (take (Z.to_nat (Z.min (length s - n) INT_MAX))
                         (drop (Z.to_nat n) s)) = length s - n).
  { intros n Hn. unfold length in *. rewrite length_take, length_drop. lia. }
  rewrite (proj2 (Z.leb_le 0 a)), (proj2 (Z.leb_le a (length s))) by lia.
  cbn [andb]. rewrite Hlen by lia.
  rewrite (proj2 (Z.leb_le 0 b)), (proj2 (Z.leb_le b (length s - a))) by lia.
  rewrite (proj2 (Z.leb_le 0 (a + b))),
    (proj2 (Z.leb_le (a + b) (length s))) by lia.
  cbn [andb]. f_equal.
  rewrite !take_ge; unfold length in *; rewrite ?length_drop; try lia.
  - rewrite drop_drop. f_equal. lia.
  - rewrite take_ge by (rewrite length_drop; lia). rewrite length_drop. lia.
Qed.

(** X6: [prefix_match] holds exactly when [str] begins with [prefix]; in
    particular not when [prefix] is the longer one. *)
Theorem prefix_match_iff (str prefix : chars) :
  prefix_match str prefix = true <-> exists rest, str = prefix ++ rest.
Proof.
  unfold prefix_match, substr.
  rewrite (proj2 (Z.ltb_ge (length prefix) 0)) by apply length_nonneg.
  rewrite (proj2 (Z.leb_le 0 (length str))) by apply length_nonneg.
  cbn [Z.leb Z.compare andb drop Z.to_nat].
  rewrite eq_true_iff, Z.sub_0_r. split.
  - intros Hview. eexists. rewrite <- Hview at 1. symmetry. apply take_drop.
  - intros [rest ->]. rewrite length_app, Z.min_r by
      (pose proof (length_nonneg rest); lia).
    unfold length. rewrite Nat2Z.id, Z2Nat.inj_0, drop_0.
    by rewrite take_app_length.
Qed.

(** *** [join] *)

Lemma empty_iff (s : chars) : empty s = true <-> s = [].
Proof. destruct s; cbn; split; done. Qed.

Lemma intercalate_cons (joiner : char) (x : chars) (l : list chars) :
  intercalate joiner (x :: l)
  = x ++ concat (map (fun y => joiner :: y) l).
Proof.
  revert x; induction l as [|y l IH]; intros x.
  - cbn. by rewrite app_nil_r.
  - change (intercalate joiner (x :: y :: l))
      with (x ++ joiner :: intercalate joiner (y :: l)).
    by rewrite IH.
Qed.

(** Once something is built, every further element comes after a joiner. *)
Lemma join_loop_nonempty (escape : chars -> chars -> char -> chars)
    (container : list chars) (joiner : char) (esc_joiner : bool)
    (res : chars) :
  res <> [] ->
  join_loop escape container joiner esc_joiner res
  = res ++ concat (map (fun y => joiner :: y)
                       (map (fun str => if esc_joiner
                                        then escape str [joiner] backslash
                                        else str) container)).
Proof.
  revert res; induction container as [|str container IH]; intros res Hres.
  - cbn. by rewrite app_nil_r.
  - cbn [join_loop map concat].
    destruct (empty res) eqn:Hempty; [by apply empty_iff in Hempty|].
    cbn [negb]. unfold plus_assign, append. rewrite IH.
    + by rewrite <- !app_assoc.
    + by destruct res.
Qed.

(** X7: [join] puts the joiner between the (escaped) elements, except that
    leading elements that are empty are left out with their joiner: the
    result is the elements from the first non-empty one on, joined.  So
    without escaping a list and the same list behind empty strings join to
    the same string, and empty strings alone join to the empty string. *)
Theorem join_skips_leading_empty (escape : chars -> chars -> char -> chars)
    (container : list chars) (joiner : char) (esc_joiner : bool) :
  join escape container joiner esc_joiner
  = intercalate joiner
      (skip_empty (map (fun str => if esc_joiner
                                   then escape str [joiner] backslash
                                   else str) container))
  /\ (forall n,
        join escape (replicate n [] ++ container) joiner false
        = join escape container joiner false)
  /\ (forall n, join escape (replicate n []) joiner false = []).
Proof.
  assert (Hjoin : forall l esc,
    join escape l joiner esc
    = intercalate joiner
        (skip_empty (map (fun str => if esc
                                     then escape str [joiner] backslash
                                     else str) l))).
  { intros l esc. unfold join. induction l as [|str l IH]; [done|].
    cbn [join_loop map empty length List.length Z.of_nat Z.eqb negb].
    unfold plus_assign, append. cbn [app].
    set (elem := if esc then escape str [joiner] backslash else str).
    destruct elem as [|c elem'] eqn:Helem.
    - cbn [skip_empty]. exact IH.
    - rewrite join_loop_nonempty by done. cbn [skip_empty].
      by rewrite intercalate_cons. }
  split; [apply Hjoin|]. split; intros n; rewrite !Hjoin.
  - f_equal. induction n as [|n IH]; [done|]. exact IH.
  - induction n as [|n IH]; [done|]. exact IH.
Qed.

(** *** [strlen] *)

(** X8: On characters without a zero followed by a zero, [strlen] is their
    number, and the view made from the pointer holds exactly them. *)
Theorem strlen_zero_terminated (s rest : chars) :
  Forall (fun c => c <> 0) s ->
  strlen (s ++ 0 :: rest) = Some (length s)
  /\ view_of_c_str (s ++ 0 :: rest) = Some s.
Proof.
  intros Hs.
  assert (Hlen : strlen (s ++ 0 :: rest) = Some (length s)).
  { induction Hs as [|c s Hc Hs IH]; [done|].
    cbn [app strlen]. rewrite (proj2 (Z.eqb_neq c 0)) by done.
    rewrite IH. f_equal. unfold length. cbn [List.length]. lia. }
  split; [done|]. unfold view_of_c_str. rewrite Hlen.
  unfold length. by rewrite Nat2Z.id, take_app_length.
Qed.

(** X9: [strlen] finds no length exactly when no zero follows. *)
Theorem strlen_none_iff (s : chars) :
  strlen s = None <-> Forall (fun c => c <> 0) s.
Proof.
  induction s as [|c s IH]; [by split|].
  cbn [strlen]. destruct (Z.eqb_spec c 0) as [->|Hc].
  - split; [done|]. intros Hall. by inversion Hall.
  - destruct (strlen s).
    + split; [done|]. intros Hall. inversion Hall as [|? ? _ Hs].
      by apply IH in Hs.
    + split; [|done]. intros _. constructor; [done|]. by apply IH.
Qed.

End StringOpsFacts.

(** * The properties at work on the concrete collaborators *)

#[local] Existing Instance test_collaborators.

(** Scenario E: pending [a; b], nothing to poll: the input handler gets [a]
    then [b] and no more. *)
Example scenario_E :
  handled_keys 0
    (sys (snd (handle_available_input 3 0 Normal
                 (test_world Autoreload_Ask false [key_a; key_b] []))))
  = [key_a; key_b].
Proof. vm_compute. reflexivity. Qed.

(** Pending keys come before polled ones; focus events go to the hooks. *)
Example pending_before_polled :
  let w' := snd (handle_available_input 5 0 Normal
                   (test_world Autoreload_Ask false [key_a; Key_FocusIn]
                               [key_b; key_x])) in
  handled_keys 0 (sys w') = [key_a; key_b; key_x]
  /\ sys w' = [ev_handle_key 0 key_a; ev_run_hook 0 "FocusIn" "c0";
               ev_handle_key 0 key_b; ev_handle_key 0 key_x].
Proof. vm_compute. split; reflexivity. Qed.

(** Scenario A and C: the check opens the dialog; the key [x] is refused and
    the dialog stays. *)
Example scenario_A_then_C :
  let w1 := snd (check_if_buffer_needs_reloading 0
                   (test_world Autoreload_Ask false [] [key_x])) in
  let w2 := snd (handle_available_input 2 0 Normal w1) in
  (m_buffer_reload_dialog_opened <$> clients w1 !! 0) = Some true
  /\ (m_buffer_reload_dialog_opened <$> clients w2 !! 0) = Some true
  /\ (m_pending_status_line <$> clients w2 !! 0)
     = Some [mkAtom "'x' is not a valid choice" (get_face "Error")]
  /\ (ih_mode <$> (m_input_handler <$> clients w2 !! 0))
     = Some (Mode_NextKey cb_on_buffer_reload_key)
  /\ handled_keys 0 (sys w2) = [key_x].
Proof. vm_compute. repeat split; reflexivity. Qed.

(** Scenario B: the confirm key reloads and closes the dialog on both
    clients of the buffer. *)
Example scenario_B :
  let w' := snd (handle_available_input 2 0 Normal
                   (test_world Autoreload_Ask true [] [key_of_char "y"])) in
  (m_buffer_reload_dialog_opened <$> clients w') = [false; false; false]
  /\ (m_pending_status_line <$> clients w' !! 0)
     = Some [mkAtom "'a.txt' reloaded" (get_face "Information")]
  /\ sys w' = [ev_handle_key 0 (key_of_char "y"); ev_reload_file_buffer 0].
Proof. vm_compute. repeat split; reflexivity. Qed.

(** The confirm key with the file gone: the reload fails, the error is
    reported, and the dialog stays flagged on both clients of the buffer,
    the client that got the key being back in normal mode. *)
Example confirm_with_failing_reload :
  let w' := snd (handle_available_input 2 0 Normal
                   (mkWorld (clients (test_world Autoreload_Ask true []
                                        [key_of_char "y"]))
                            (buffers world_gone) (get_fs_timestamp world_gone)
                            [] "kak-session" [])) in
  (m_buffer_reload_dialog_opened <$> clients w') = [true; true; false]
  /\ (ih_mode <$> (m_input_handler <$> clients w' !! 0)) = Some Mode_Normal
  /\ (m_pending_status_line <$> clients w' !! 0)
     = Some [mkAtom "file access error" (get_face "Error")]
  /\ sys w' = [ev_handle_key 0 (key_of_char "y"); ev_reload_file_buffer 0;
               ev_run_hook 0 "RuntimeError" "file access error"].
Proof. vm_compute. repeat split; reflexivity. Qed.

(** The mode line when the format does not expand, and when it does. *)
Example mode_line_on_failure :
  generate_mode_line
    (set_m_window client_closed
       (mkTestWindow 0 (mkOptions [] "%bad" Autoreload_Ask) (0, 0)%Z
                     (0, 0)%Z false))
    (mkBuffer "/tmp/a.txt" "a.txt" (mkFlags true true false) (5, 0)%Z true)
    "kak-session"
  = ([mkAtom "modelinefmt error, see *debug* buffer" (get_face "Error");
      mkAtom "[+]" (get_face "Information");
      mkAtom "[new file]" (get_face "Information");
      mkAtom " " Face_default; mkAtom "insert" Face_default;
      mkAtom " - c0@[kak-session]" Face_default],
     [ev_write_to_debug_buffer
        "Error while parsing modelinefmt: no such expansion"]).
Proof. vm_compute. reflexivity. Qed.

Example mode_line_on_success :
  generate_mode_line client_closed buffer_a "kak-session"
  = ([mkAtom "%val{bufname}" Face_default; mkAtom " " Face_default;
      mkAtom "insert" Face_default;
      mkAtom " - c0@[kak-session]" Face_default], []).
Proof. vm_compute. reflexivity. Qed.

(** A redraw of a moved window with an inline menu and info. *)
Example redraw_moved :
  ui_calls (m_ui (fst (redraw_ifn
     (test_client "c0" 0 Autoreload_Ask false [] [])
     (test_buffer "a.txt" 5) "kak-session")))
  = [ui_draw [[mkAtom "text" Face_default]] (get_face "Default");
     ui_menu_show [[mkAtom "item" Face_default]] (2, 2)%Z
       (get_face "MenuForeground") (get_face "MenuBackground")
       MenuStyle_Inline;
     ui_menu_select 0;
     ui_info_show "title" "body" (3, 1)%Z (get_face "Information")
       InfoStyle_InlineAbove;
     ui_draw_status []
       [mkAtom "%val{bufname}" Face_default; mkAtom " " Face_default;
        mkAtom "insert" Face_default;
        mkAtom " - c0@[kak-session]" Face_default]
       (get_face "StatusLine");
     ui_refresh].
Proof. vm_compute. reflexivity. Qed.

(** ** The theorems with hypotheses, applied *)

Lemma check_if_buffer_needs_reloading_cases_witness :
  clients world_closed !! 0 = Some client_closed
  /\ buffers world_closed !! context_buffer client_closed = Some buffer_a
  /\ exists c',
       clients (snd (check_if_buffer_needs_reloading 0 world_closed)) !! 0
         = Some c'
       /\ m_buffer_reload_dialog_opened c' = true.
Proof.
  split; [reflexivity|]. split; [reflexivity|].
  destruct (check_if_buffer_needs_reloading_cases 0 world_closed
              client_closed buffer_a eq_refl eq_refl) as (_ & _ & Hask).
  destruct Hask as (_ & c' & title & body & Hc' & Hflag & _).
  - intros [Hu | [Hu | [Hu | [Hu | Hu]]]]; vm_compute in Hu; discriminate.
  - reflexivity.
  - exists c'. split; assumption.
Defined.

Lemma on_buffer_reload_key_failed_reload_witness :
  clients world_gone !! 0 = Some client_opened
  /\ buffers world_gone !! context_buffer client_opened = Some buffer_a
  /\ reload_file_buffer (get_fs_timestamp world_gone) buffer_a
     = inl "file access error"
  /\ fst (on_buffer_reload_key 0 (key_of_char "y") world_gone)
     = Raise (runtime_error "file access error")
  /\ (m_buffer_reload_dialog_opened
        <$> clients (snd (on_buffer_reload_key 0 (key_of_char "y")
                            world_gone)))
     = [true; true; false].
Proof.
  split; [reflexivity|]. split; [reflexivity|]. split; [reflexivity|].
  destruct (on_buffer_reload_key_failed_reload 0 (key_of_char "y")
              world_gone client_opened buffer_a "file access error"
              eq_refl eq_refl (or_introl eq_refl) eq_refl)
    as (Hrun & Hclients & _).
  rewrite Hclients, Hrun. split; reflexivity.
Defined.

Lemma on_buffer_reload_key_invalid_witness :
  clients world_opened !! 0 = Some client_opened
  /\ buffers world_opened !! context_buffer client_opened = Some buffer_a
  /\ buffers (snd (on_buffer_reload_key 0 key_x world_opened))
     = buffers world_opened
  /\ sys (snd (on_buffer_reload_key 0 key_x world_opened)) = sys world_opened.
Proof.
  split; [reflexivity|]. split; [reflexivity|].
  destruct (on_buffer_reload_key_invalid 0 key_x world_opened client_opened
              buffer_a eq_refl eq_refl) as (_ & Hb & Hs & _);
    try (intros Hk; vm_compute in Hk; discriminate).
  split; assumption.
Defined.

Lemma decline_suppresses_reprompt_witness :
  clients world_opened !! 0 = Some client_opened
  /\ buffers world_opened !! context_buffer client_opened = Some buffer_a
  /\ check_if_buffer_needs_reloading 0
       (snd (on_buffer_reload_key 0 (key_of_char "n") world_opened))
     = (Ret tt, snd (on_buffer_reload_key 0 (key_of_char "n") world_opened)).
Proof.
  split; [reflexivity|]. split; [reflexivity|].
  destruct (decline_suppresses_reprompt 0 (key_of_char "n") world_opened
              client_opened buffer_a eq_refl eq_refl (or_introl eq_refl))
    as (_ & _ & _ & _ & Hcheck).
  exact (Hcheck 0 client_opened eq_refl eq_refl).
Defined.

Definition client_urgent : Client :=
  test_client "c0" 0 Autoreload_Ask false [key_a] [ctrl "c"; key_b].

Lemma handle_available_input_urgent_witness :
  clients world_urgent !! 0 = Some client_urgent
  /\ get_key (m_ui client_urgent) = (ctrl "c", mkUI [] [key_b] (80, 24)%Z)
  /\ exists w' c',
       handle_available_input 0 0 Urgent world_urgent = (Ret tt, w')
       /\ clients w' !! 0 = Some c'
       /\ sys w' = [ev_killpg_SIGINT]
       /\ m_pending_keys c' = [key_a]
       /\ ui_input (m_ui c') = [key_b].
Proof.
  split; [reflexivity|]. split; [reflexivity|].
  destruct (handle_available_input_urgent 0 0 world_urgent client_urgent
              (ctrl "c") (mkUI [] [key_b] (80, 24)%Z) eq_refl eq_refl)
    as (w' & c' & Hrun & Hc' & Hui & _ & _ & Hint & _).
  destruct (Hint eq_refl) as [Hsys Hpending].
  exists w', c'. rewrite Hui. repeat split; assumption.
Defined.



Lemma change_buffer_closes_dialog_witness :
  clients world_opened !! 0 = Some client_opened
  /\ buffers world_opened !! 1 = Some (test_buffer "b.txt" 7)
  /\ exists c',
       clients (change_buffer 0 1 world_opened) !! 0 = Some c'
       /\ m_buffer_reload_dialog_opened c' = false.
Proof.
  split; [reflexivity|]. split; [reflexivity|].
  destruct (change_buffer_closes_dialog 0 1 world_opened client_opened
              (test_buffer "b.txt" 7) eq_refl eq_refl)
    as ((c' & Hc' & Hflag & _) & _).
  exists c'. split; assumption.
Defined.

(** ** The further properties, applied *)

Lemma substr_in_range_witness :
  (0 <= 1 <= StringOps.length hello)%Z
  /\ (StringOps.length hello <= StringOps.INT_MAX)%Z
  /\ exists view,
       StringOps.substr hello 1 3 = Some view
       /\ StringOps.length view = 3%Z.
Proof.
  assert (H1 : (0 <= 1 <= StringOps.length hello)%Z)
    by (split; intros Hgt; discriminate Hgt).
  assert (H2 : (StringOps.length hello <= StringOps.INT_MAX)%Z)
    by (intros Hgt; discriminate Hgt).
  split; [exact H1|]. split; [exact H2|].
  destruct (StringOpsFacts.substr_in_range hello 1 3 H1 H2)
    as (view & Hview & Hlen & _).
  exists view. split; [exact Hview|exact Hlen].
Defined.

Lemma substr_substr_witness :
  (0 <= 1)%Z /\ (0 <= 2)%Z /\ (1 + 2 <= StringOps.length hello)%Z
  /\ (StringOps.length hello <= StringOps.INT_MAX)%Z
  /\ match StringOps.substr hello 1 (-1) with
     | Some view => StringOps.substr view 2 (-1)
     | None => None
     end = StringOps.substr hello 3 (-1).
Proof.
  assert (H1 : (0 <= 1)%Z) by lia.
  assert (H2 : (0 <= 2)%Z) by lia.
  assert (H3 : (1 + 2 <= StringOps.length hello)%Z)
    by (intros Hgt; discriminate Hgt).
  assert (H4 : (StringOps.length hello <= StringOps.INT_MAX)%Z)
    by (intros Hgt; discriminate Hgt).
  repeat (split; [assumption|]).
  exact (StringOpsFacts.substr_substr hello 1 2 H1 H2 H3 H4).
Defined.

Lemma strlen_zero_terminated_witness :
  Forall (fun c => c <> 0%Z) hello
  /\ StringOps.strlen (hello ++ [0; 33]%Z) = Some 5%Z
  /\ StringOps.view_of_c_str (hello ++ [0; 33]%Z) = Some hello.
Proof.
  assert (H1 : Forall (fun c => c <> 0%Z) hello)
    by (repeat (constructor; [discriminate|]); constructor).
  split; [exact H1|].
  exact (StringOpsFacts.strlen_zero_terminated hello [33%Z] H1).
Defined.

Lemma get_env_var_first_binding_witness :
  Forall (fun it : string * string => fst it <> "b") [("a", "1")]
  /\ get_env_var [("a", "1")] "b" = ""
  /\ get_env_var [("a", "1"); ("b", "2"); ("b", "3")] "b" = "2".
Proof.
  assert (H1 : Forall (fun it : string * string => fst it <> "b")
                      [("a", "1")])
    by (constructor; [discriminate|constructor]).
  split; [exact H1|].
  exact (get_env_var_first_binding [("a", "1")] [("b", "3")] "b" "2" H1).
Defined.

Lemma confirm_reloads_once_witness :
  clients world_opened !! 0 = Some client_opened
  /\ buffers world_opened !! context_buffer client_opened = Some buffer_a
  /\ reload_file_buffer (get_fs_timestamp world_opened) buffer_a
     = inr (set_fs_timestamp buffer_a (7, 0)%Z)
  /\ fst (on_buffer_reload_key 0 (key_of_char "y") world_opened) = Ret tt
  /\ sys (snd (on_buffer_reload_key 0 (key_of_char "y") world_opened))
     = [ev_reload_file_buffer 0].
Proof.
  split; [reflexivity|]. split; [reflexivity|]. split; [reflexivity|].
  destruct (confirm_reloads_once 0 (key_of_char "y") world_opened
              client_opened buffer_a (set_fs_timestamp buffer_a (7, 0)%Z)
              eq_refl eq_refl (or_introl eq_refl) eq_refl)
    as (Hret & Hsys & _).
  split; [exact Hret|exact Hsys].
Defined.

Lemma check_if_buffer_needs_reloading_idempotent_witness :
  (forall c, clients world_closed !! 0 = Some c ->
             opt_autoreload (context_options c) <> Autoreload_Yes)
  /\ check_if_buffer_needs_reloading 0
       (snd (check_if_buffer_needs_reloading 0 world_closed))
     = (Ret tt, snd (check_if_buffer_needs_reloading 0 world_closed)).
Proof.
  assert (H1 : forall c, clients world_closed !! 0 = Some c ->
                 opt_autoreload (context_options c) <> Autoreload_Yes).
  { intros c Hc. vm_compute in Hc. injection Hc as <-.
    intros Heq. vm_compute in Heq. discriminate. }
  split; [exact H1|].
  exact (proj2 (check_if_buffer_needs_reloading_idempotent 0 world_closed
                  H1)).
Defined.

Lemma change_buffer_frame_witness :
  clients world_opened !! 0 = Some client_opened
  /\ buffers world_opened !! 1 = Some (test_buffer "b.txt" 7)
  /\ sys (change_buffer 0 1 world_opened)
     = [ev_unregister_watcher 0; ev_register_watcher 0;
        ev_run_hook 0 "WinDisplay" "/tmp/b.txt"].
Proof.
  split; [reflexivity|]. split; [reflexivity|].
  destruct (change_buffer_frame 0 1 world_opened client_opened
              (test_buffer "b.txt" 7) eq_refl eq_refl) as (Hsys & _).
  exact Hsys.
Defined.

Lemma redraw_ifn_twice_witness :
  let c1 := fst (redraw_ifn client_closed buffer_a "kak-session") in
  window_needs_redraw (m_window c1) (context c1) = false
  /\ issued (m_ui c1) (m_ui (fst (redraw_ifn c1 buffer_a "kak-session")))
     = [ui_refresh].
Proof.
  cbn zeta. split; [reflexivity|].
  destruct (redraw_ifn_twice client_closed buffer_a "kak-session" eq_refl)
    as [_ Hcalls].
  exact Hcalls.
Defined.

Lemma menu_reanchored_with_selection_witness :
  [[mkAtom "one" Face_default]; [mkAtom "two" Face_default]] <> []
  /\ window_needs_redraw (m_window client_closed) (context client_closed)
     = true
  /\ List.filter is_menu_call
       (issued
          (m_ui (menu_select 1
                   (menu_show [[mkAtom "one" Face_default];
                               [mkAtom "two" Face_default]]
                              (5, 2)%Z MenuStyle_Inline client_closed)))
          (m_ui (fst (redraw_ifn
                   (menu_select 1
                      (menu_show [[mkAtom "one" Face_default];
                                  [mkAtom "two" Face_default]]
                                 (5, 2)%Z MenuStyle_Inline client_closed))
                   buffer_a "kak-session"))))
     = [ui_menu_show [[mkAtom "one" Face_default];
                      [mkAtom "two" Face_default]] (2, 2)%Z
          (get_face "MenuForeground") (get_face "MenuBackground")
          MenuStyle_Inline;
        ui_menu_select 1].
Proof.
  assert (H1 : [[mkAtom "one" Face_default]; [mkAtom "two" Face_default]]
               <> []) by discriminate.
  split; [exact H1|]. split; [reflexivity|].
  refine (proj1 (menu_reanchored_with_selection client_closed buffer_a
                   "kak-session" _ (5, 2)%Z 1%Z H1 eq_refl _)).
  intros Heq. vm_compute in Heq. discriminate.
Defined.


Lemma runtime_error_contained_witness :
  clients world_failing !! 0 = Some client_failing
  /\ forwarded key_bang = true
  /\ engine_handle_key key_bang (context client_failing)
     = Some (runtime_error "boom")
  /\ exists w' c',
       handle_available_input 1 0 Normal world_failing = (Ret tt, w')
       /\ last (sys w') = Some (ev_run_hook 0 "RuntimeError" "boom")
       /\ handled_keys 0 (sys w') = [key_bang]
       /\ clients w' !! 0 = Some c'
       /\ m_pending_status_line c' = [mkAtom "boom" (get_face "Error")]
       /\ m_pending_keys c' = [key_a].
Proof.
  split; [reflexivity|]. split; [reflexivity|]. split; [reflexivity|].
  destruct (runtime_error_contained 0 0 Normal world_failing client_failing
              key_bang [key_a] "boom" eq_refl)
    as (w' & c' & Hrun & Hlast & Hh & Hc' & Hstatus & Hkeys);
    try reflexivity; try discriminate.
  exists w', c'. repeat split; assumption.
Defined.




Lemma dialog_is_modal_witness :
  clients world_modal !! 0 = Some client_modal
  /\ m_buffer_reload_dialog_opened client_modal = true
  /\ Forall (fun k => resolves_dialog k = false)
            [key_x; Key_FocusIn; key_bang]
  /\ exists w' c',
       handle_available_input 4 0 Normal world_modal = (Ret tt, w')
       /\ clients w' !! 0 = Some c'
       /\ m_buffer_reload_dialog_opened c' = true
       /\ sys w' = [ev_handle_key 0 key_x; ev_run_hook 0 "FocusIn" "c0";
                    ev_handle_key 0 key_bang].
Proof.
  assert (Hks : Forall (fun k => resolves_dialog k = false)
                       [key_x; Key_FocusIn; key_bang])
    by (repeat (constructor; [reflexivity|]); constructor).
  split; [reflexivity|]. split; [reflexivity|]. split; [exact Hks|].
  destruct (dialog_is_modal 4 0 world_modal client_modal buffer_a
              (fun win => eq_refl) eq_refl eq_refl eq_refl eq_refl Hks)
    as (w' & c' & Hrun & Hc' & Hopen & _ & _ & _ & Hsys & _).
  { vm_compute; lia. }
  exists w', c'. repeat split; assumption.
Defined.
